(** * Verification of [codes/models/epi.py] (gpl-covid)

    A shallow embedding of the simulation-and-regression pipeline of
    [epi.py]: rate/time conversion, policy timing, stochastic parameters,
    the SIR/SEIR simulators and the regression driver.

    Numbers.  The Python code computes with numpy [float64].  Definitions
    that are pure arithmetic are generic in the carrier (class [Arith]) and
    are read at two carriers:
    - [xreal], the real numbers extended with [NaN]: exact arithmetic, no
      rounding and no overflow (a result that binary64 reports as an
      infinity is [NaN] here);
    - [float], Rocq's primitive binary64 numbers, the arithmetic numpy
      really performs, used where a statement is about bit-exact equality.
    Time coordinates are rationals ([Q]); random draws are read from an
    arbitrary stream, so a statement quantified over the stream covers
    every outcome of the generator. *)

From Stdlib Require Import Reals Lra Lia ZArith QArith Qreals Qround.
From Stdlib Require Import Floats.PrimFloat Ascii FunctionalExtensionality.
From stdpp Require Import gmap strings list sorting.

(** ** Python exceptions and the result type *)

Inductive exn :=
| ValueError (msg : string)
| AssertionError
| AttributeError (name : string)
| KeyError (name : string)
| IndexError.

(** A computation either raises or returns. *)
Definition result (A : Type) : Type := exn + A.

Definition raise {A} (e : exn) : result A := inl e.
Definition ret {A} (a : A) : result A := inr a.
Definition bind {A B} (m : result A) (k : A -> result B) : result B :=
  match m with inl e => inl e | inr a => k a end.

Notation "'let*' x ':=' m 'in' k" := (bind m (fun x => k))
  (at level 10, x pattern, m at level 100, k at level 200).

Definition returns {A} (m : result A) : Prop := exists a, m = inr a.

(** ** Arithmetic carriers *)

Class Arith (T : Type) := {
  of_Z : Z -> T;
  add : T -> T -> T;
  sub : T -> T -> T;
  mul : T -> T -> T;
  div : T -> T -> T;
  neg : T -> T;
  sqrt : T -> T
}.

Declare Scope arith_scope.
Delimit Scope arith_scope with A.
Infix "+" := add : arith_scope.
Infix "-" := sub : arith_scope.
Infix "*" := mul : arith_scope.
Infix "/" := div : arith_scope.
Notation "- x" := (neg x) : arith_scope.

(** numpy evaluates [x ** 2] on float arrays as [x * x]. *)
Definition sq {T} `{Arith T} (x : T) : T := (x * x)%A.

(** *** Extended reals: exact arithmetic with NaN *)

Inductive xreal := NaN | Fin (r : R).

Definition Rltb (x y : R) : bool := if Rlt_dec x y then true else false.
Definition Rleb (x y : R) : bool := if Rle_dec x y then true else false.
Definition Reqb (x y : R) : bool := if Req_dec_T x y then true else false.

Definition xlift1 (f : R -> R) (x : xreal) : xreal :=
  match x with Fin a => Fin (f a) | NaN => NaN end.
Definition xlift2 (f : R -> R -> R) (x y : xreal) : xreal :=
  match x, y with Fin a, Fin b => Fin (f a b) | _, _ => NaN end.

Definition xadd := xlift2 Rplus.
Definition xsub := xlift2 Rminus.
Definition xmul := xlift2 Rmult.
Definition xneg := xlift1 Ropp.
Definition xdiv (x y : xreal) : xreal :=
  match x, y with
  | Fin a, Fin b => if Reqb b 0 then NaN else Fin (a / b)%R
  | _, _ => NaN
  end.
Definition xsqrt (x : xreal) : xreal :=
  match x with
  | Fin a => if Rltb a 0 then NaN else Fin (R_sqrt.sqrt a)
  | NaN => NaN
  end.
Definition xexp := xlift1 exp.

(** Comparisons with a NaN operand are false, as in IEEE 754. *)
Definition xltb (x y : xreal) : bool :=
  match x, y with Fin a, Fin b => Rltb a b | _, _ => false end.
Definition xleb (x y : xreal) : bool :=
  match x, y with Fin a, Fin b => Rleb a b | _, _ => false end.
Definition xeqb (x y : xreal) : bool :=
  match x, y with Fin a, Fin b => Reqb a b | _, _ => false end.

Definition is_finite (x : xreal) : Prop := exists r, x = Fin r.

#[export] Instance xreal_arith : Arith xreal := {|
  of_Z z := Fin (IZR z);
  add := xadd; sub := xsub; mul := xmul; div := xdiv;
  neg := xneg; sqrt := xsqrt
|}.

Definition xQ (q : Q) : xreal := Fin (Q2R q).

(** *** binary64 *)

Fixpoint float_of_pos (p : positive) : float :=
  match p with
  | xH => PrimFloat.one
  | xO q => PrimFloat.mul PrimFloat.two (float_of_pos q)
  | xI q => PrimFloat.add (PrimFloat.mul PrimFloat.two (float_of_pos q)) PrimFloat.one
  end.

(** Integer literals of the source ([2], [4]); exact on small integers. *)
Definition float_of_Z (z : Z) : float :=
  match z with
  | Z0 => PrimFloat.zero
  | Zpos p => float_of_pos p
  | Zneg p => PrimFloat.opp (float_of_pos p)
  end.

#[export] Instance float_arith : Arith float := {|
  of_Z := float_of_Z;
  add := PrimFloat.add; sub := PrimFloat.sub;
  mul := PrimFloat.mul; div := PrimFloat.div;
  neg := PrimFloat.opp; sqrt := PrimFloat.sqrt
|}.

(** *** binary64 as rounded reals

    IEEE 754 defines the result of an operation as the exact result
    rounded to the nearest representable number, ties to even, and as an
    infinity when the rounded value exceeds the largest finite number.
    [b64_arith] is that arithmetic on [xreal]: every operation rounds, and
    an overflow gives [NaN] (which stands for the infinities too). *)

(** [2 ^ e] *)
Definition bpow (e : Z) : R := Rpower 2 (IZR e).

(** [floor (log2 |x|)], the exponent of the leading bit of [x]. *)
Definition ilog2 (x : R) : Z := Int_part (ln (Rabs x) / ln 2).

(** Round half to even, as [np.round] and IEEE 754 do. *)
Definition Rround_half_even (x : R) : Z :=
  let f := Int_part x in
  let r := frac_part x in
  if Rltb r (1 / 2) then f
  else if Rltb (1 / 2) r then (f + 1)%Z
  else if Z.even f then f else (f + 1)%Z.

(** The nearest number with [prec] significant bits whose last bit weighs
    at least [2 ^ emin] (gradual underflow), ties to even. *)
Definition round_to (prec emin : Z) (x : R) : R :=
  let e := Z.max (ilog2 x - (prec - 1)) emin in
  (IZR (Rround_half_even (x / bpow e)) * bpow e)%R.

(** The largest finite binary64 and binary32 numbers. *)
Definition max64 : R := IZR ((2 ^ 53 - 1) * 2 ^ 971).
Definition max32 : R := IZR ((2 ^ 24 - 1) * 2 ^ 104).

(** The binary64 result of an operation whose exact result is [x]. *)
Definition fl64 (x : R) : xreal :=
  let y := round_to 53 (-1074) x in
  if Rltb max64 (Rabs y) then NaN else Fin y.

(** [x.astype(np.float32)] *)
Definition fl32 (x : xreal) : xreal :=
  match x with
  | Fin a => let y := round_to 24 (-149) a in
             if Rltb max32 (Rabs y) then NaN else Fin y
  | NaN => NaN
  end.

Definition b64_lift2 (f : R -> R -> R) (x y : xreal) : xreal :=
  match x, y with Fin a, Fin b => fl64 (f a b) | _, _ => NaN end.

Definition b64_div (x y : xreal) : xreal :=
  match x, y with
  | Fin a, Fin b => if Reqb b 0 then NaN else fl64 (a / b)
  | _, _ => NaN
  end.

Definition b64_sqrt (x : xreal) : xreal :=
  match x with
  | Fin a => if Rltb a 0 then NaN else fl64 (R_sqrt.sqrt a)
  | NaN => NaN
  end.

Definition b64_arith : Arith xreal := {|
  of_Z z := fl64 (IZR z);
  add := b64_lift2 Rplus; sub := b64_lift2 Rminus; mul := b64_lift2 Rmult;
  div := b64_div; neg := xneg; sqrt := b64_sqrt
|}.

(** [np.exp] *)
Class Exp (T : Type) := { np_exp : T -> T }.

#[export] Instance xreal_exp : Exp xreal := {| np_exp := xexp |}.

(** The library's [exp] is taken to round correctly; the statements below
    use only that its result is not negative and that it overflows. *)
Definition b64_exp : Exp xreal := {|
  np_exp x := match x with Fin a => fl64 (exp a) | NaN => NaN end
|}.

(** ** Growth rate and transmission rate ([get_beta_*], [get_lambda_*]) *)

Section Rates.
Context {T : Type} `{Arith T}.

Definition get_beta_SEIR (lambdas gammas sigmas : T) : T :=
  ((lambdas + gammas) * (lambdas + sigmas) / sigmas)%A.

(** [*args] is accepted and ignored. *)
Definition get_beta_SIR (lambdas gammas : T) (args : list T) : T :=
  (lambdas + gammas)%A.

Definition get_lambda_SEIR (betas gammas sigmas : T) : T :=
  ((- (sigmas + gammas)
    + sqrt (sq (sigmas - gammas) + of_Z 4 * sigmas * betas)) / of_Z 2)%A.

Definition get_lambda_SIR (betas gammas : T) (args : list T) : T :=
  (betas - gammas)%A.

End Rates.

(** ** Labelled arrays ([xarray.DataArray], [xarray.Dataset])

    An array is addressed by dimension name: an [index] gives the position
    along every dimension, and an array ignores the dimensions it does not
    have, which is how xarray broadcasts. *)

Definition index := string -> nat.

Definition at_dim (ix : index) (d : string) (i : nat) : index :=
  fun d' => if decide (d' = d) then i else ix d'.

Record DataArray := {
  dims : list string;
  values : index -> xreal
}.

Record Dataset := {
  t : list Q;                        (* the time coordinate [ds.t] *)
  sizes : gmap string nat;           (* length of every other dimension *)
  coords : gset string;              (* names of the coordinate variables *)
  variables : gmap string DataArray  (* [ds.variables], [t] apart *)
}.

(** [name in ds.dims] *)
Definition in_dims (name : string) (ds : Dataset) : bool :=
  bool_decide (name = "t"%string) || bool_decide (name ∈ dom (sizes ds)).

(** [len(ds.<dim>)] *)
Definition dim_len (ds : Dataset) (d : string) : nat :=
  if decide (d = "t"%string) then length (t ds) else default 0%nat (sizes ds !! d).

(** [ds.<name>]: attribute access. *)
Definition get_attr (ds : Dataset) (name : string) : result DataArray :=
  match variables ds !! name with
  | Some v => ret v
  | None => raise (AttributeError name)
  end.

(** [ds[name]]: item access. *)
Definition get_item (ds : Dataset) (name : string) : result DataArray :=
  match variables ds !! name with
  | Some v => ret v
  | None => raise (KeyError name)
  end.

(** [ds[name] = v] on a copy. *)
Definition set_item (ds : Dataset) (name : string) (v : DataArray) : Dataset :=
  {| t := t ds; sizes := sizes ds; coords := coords ds;
     variables := <[name := v]> (variables ds) |}.

(** Element-wise operations; the result has the dimensions of both. *)
Definition union_dims (d1 d2 : list string) : list string :=
  d1 ++ filter (fun d => d ∉ d1) d2.

Definition map2_da (f : xreal -> xreal -> xreal) (a b : DataArray) : DataArray :=
  {| dims := union_dims (dims a) (dims b);
     values := fun ix => f (values a ix) (values b ix) |}.

Definition map_da (f : xreal -> xreal) (a : DataArray) : DataArray :=
  {| dims := dims a; values := fun ix => f (values a ix) |}.

(** ** The simulators ([run_SIR], [run_SEIR])

    A numpy state array has one row per time step; a row is addressed by
    the remaining dimensions. *)

Definition ndarray := nat -> index -> xreal.

(** [np.ones(shp) * np.nan] *)
Definition init_state_array : ndarray := fun _ _ => NaN.

(** [A[i] = row] *)
Definition set_row (A : ndarray) (i : nat) (row : index -> xreal) : ndarray :=
  fun j => if decide (j = i) then row else A j.

(** [da.transpose("t", ...)][i]: row [i] of an array with the time axis first. *)
Definition rows_of (a : DataArray) : ndarray :=
  fun i ix => values a (at_dim ix "t" i).

(** [(new_dims, o)]: the state array as a labelled array. *)
Definition of_rows (new_dims : list string) (A : ndarray) : DataArray :=
  {| dims := new_dims; values := fun ix => A (ix "t"%string) ix |}.

Definition new_dims_of (a : DataArray) : list string :=
  "t"%string :: filter (fun d => d ≠ "t"%string) (dims a).

(** The arrays a simulator reads: [beta_stoch] with the time axis first
    (transposing fails without a [t] axis) and the others broadcast like
    it. *)
Definition rate_rows (ds : Dataset) (name : string) (like : DataArray)
  : result ndarray :=
  let* a := get_attr ds name in
  if forallb (fun d => bool_decide (d ∈ dims like)) (dims a)
  then ret (rows_of a)
  else raise (ValueError "operands could not be broadcast together").

Definition beta_rows (ds : Dataset) : result (DataArray * ndarray) :=
  let* b := get_attr ds "beta_stoch" in
  if bool_decide ("t"%string ∈ dims b)
  then ret (b, rows_of b)
  else raise (ValueError "t is not a dimension of beta_stoch").

Record SIR_state := { sir_S : ndarray; sir_I : ndarray; sir_R : ndarray }.

Record SEIR_state := {
  seir_S : ndarray; seir_E : ndarray; seir_I : ndarray; seir_R : ndarray
}.

(** The simulators are generic in the arithmetic of the state arrays:
    exact by default, [b64_arith] with [b64_exp] for what numpy computes. *)
Section Simulators.
Context {A : Arith xreal} {X : Exp xreal}.

Definition SIR_init (I0 R0 : xreal) : SIR_state :=
  let R_ := set_row init_state_array 0 (fun _ => R0) in
  let I_ := set_row init_state_array 0 (fun _ => I0) in
  let S_ := set_row init_state_array 0
             (fun ix => (of_Z 1 - I_ 0%nat ix - R_ 0%nat ix)%A) in
  {| sir_S := S_; sir_I := I_; sir_R := R_ |}.

(** The body of [for i in range(1, n_steps)]. *)
Definition SIR_step (beta gamma : ndarray) (st : SIR_state) (i : nat) : SIR_state :=
  let '{| sir_S := S_; sir_I := I_; sir_R := R_ |} := st in
  let new_infected_rate := fun ix => (beta (i - 1)%nat ix * S_ (i - 1)%nat ix)%A in
  let new_removed_rate := gamma (i - 1)%nat in
  let S_ := set_row S_ i
    (fun ix => (S_ (i - 1)%nat ix - new_infected_rate ix * I_ (i - 1)%nat ix)%A) in
  let I_ := set_row I_ i
    (fun ix => (I_ (i - 1)%nat ix
                * np_exp (new_infected_rate ix - new_removed_rate ix))%A) in
  let R_ := set_row R_ i (fun ix => (of_Z 1 - S_ i ix - I_ i ix)%A) in
  {| sir_S := S_; sir_I := I_; sir_R := R_ |}.

Definition SIR_loop (beta gamma : ndarray) (n_steps : nat) (st : SIR_state)
  : SIR_state :=
  foldl (SIR_step beta gamma) st (seq 1 (n_steps - 1)).

Definition run_SIR (I0 R0 : xreal) (ds : Dataset) : result Dataset :=
  let n_steps := length (t ds) in
  let* (b, beta) := beta_rows ds in
  let new_dims := new_dims_of b in
  let* gamma := rate_rows ds "gamma_stoch" b in
  if decide (n_steps = 0)%nat then raise IndexError else
  let st := SIR_loop beta gamma n_steps (SIR_init I0 R0) in
  let out := set_item ds "S" (of_rows new_dims (sir_S st)) in
  let out := set_item out "I" (of_rows new_dims (sir_I st)) in
  let out := set_item out "R" (of_rows new_dims (sir_R st)) in
  ret out.

Definition SEIR_init (E0 I0 R0 : xreal) : SEIR_state :=
  let R_ := set_row init_state_array 0 (fun _ => R0) in
  let I_ := set_row init_state_array 0 (fun _ => I0) in
  let E_ := set_row init_state_array 0 (fun _ => E0) in
  let S_ := set_row init_state_array 0
             (fun ix => (of_Z 1 - I_ 0%nat ix - R_ 0%nat ix - E_ 0%nat ix)%A) in
  {| seir_S := S_; seir_E := E_; seir_I := I_; seir_R := R_ |}.

Definition SEIR_step (beta gamma sigma : ndarray) (st : SEIR_state) (i : nat)
  : SEIR_state :=
  let '{| seir_S := S_; seir_E := E_; seir_I := I_; seir_R := R_ |} := st in
  let new_exposed :=
    fun ix => (beta (i - 1)%nat ix * S_ (i - 1)%nat ix * I_ (i - 1)%nat ix)%A in
  let new_infected := fun ix => (sigma (i - 1)%nat ix * E_ (i - 1)%nat ix)%A in
  let new_removed := fun ix => (gamma (i - 1)%nat ix * I_ (i - 1)%nat ix)%A in
  let S_ := set_row S_ i (fun ix => (S_ (i - 1)%nat ix - new_exposed ix)%A) in
  let E_ := set_row E_ i
    (fun ix => (E_ (i - 1)%nat ix + new_exposed ix - new_infected ix)%A) in
  let I_ := set_row I_ i
    (fun ix => (I_ (i - 1)%nat ix + new_infected ix - new_removed ix)%A) in
  let R_ := set_row R_ i (fun ix => (of_Z 1 - S_ i ix - E_ i ix - I_ i ix)%A) in
  {| seir_S := S_; seir_E := E_; seir_I := I_; seir_R := R_ |}.

Definition SEIR_loop (beta gamma sigma : ndarray) (n_steps : nat)
  (st : SEIR_state) : SEIR_state :=
  foldl (SEIR_step beta gamma sigma) st (seq 1 (n_steps - 1)).

Definition run_SEIR (E0 I0 R0 : xreal) (ds : Dataset) : result Dataset :=
  let n_steps := length (t ds) in
  let* (b, beta) := beta_rows ds in
  let new_dims := new_dims_of b in
  let* gamma := rate_rows ds "gamma_stoch" b in
  let* sigma := rate_rows ds "sigma_stoch" b in
  if decide (n_steps = 0)%nat then raise IndexError else
  let st := SEIR_loop beta gamma sigma n_steps (SEIR_init E0 I0 R0) in
  let out := set_item ds "S" (of_rows new_dims (seir_S st)) in
  let out := set_item out "E" (of_rows new_dims (seir_E st)) in
  let out := set_item out "I" (of_rows new_dims (seir_I st)) in
  let out := set_item out "R" (of_rows new_dims (seir_R st)) in
  ret out.

End Simulators.

(** ** numpy helpers on lists *)

(** [np.round] rounds half to even. *)
Definition round_half_even (q : Q) : Z :=
  let f := Qfloor q in
  match Qcompare (q - inject_Z f) (1 # 2) with
  | Lt => f
  | Gt => (f + 1)%Z
  | Eq => if Z.even f then f else (f + 1)%Z
  end.

(** [np.argmax] along an axis: the first position of the maximum. *)
Fixpoint argmax_from (best : Q) (besti i : nat) (l : list Q) : nat :=
  match l with
  | [] => besti
  | x :: l' =>
      if Qlt_le_dec best x then argmax_from x i (S i) l'
      else argmax_from best besti (S i) l'
  end.

Definition argmax (l : list Q) : nat :=
  match l with [] => 0%nat | x :: l' => argmax_from x 0 1 l' end.

(** [argmax] of a boolean array: the first [True], or 0 when there is none. *)
Fixpoint argmax_bool (l : list bool) : nat :=
  match l with
  | [] => 0%nat
  | true :: _ => 0%nat
  | false :: l' => if existsb (fun b : bool => b) l' then S (argmax_bool l') else 0%nat
  end.

(** The first position holding [True], when there is one. *)
Fixpoint first_true (l : list bool) : option nat :=
  match l with
  | [] => None
  | true :: _ => Some 0%nat
  | false :: l' => S <$> first_true l'
  end.

Definition Qmax_list (x : Q) (l : list Q) : Q :=
  foldl (fun m y => if Qlt_le_dec m y then y else m) x l.
Definition Qmin_list (x : Q) (l : list Q) : Q :=
  foldl (fun m y => if Qlt_le_dec y m then y else m) x l.

(** [np.unique]: the sorted distinct elements. *)
Definition np_unique (x : list Z) : list Z := merge_sort Z.le (remove_dups x).

(** [row.sort()] *)
Definition np_sort (x : list Z) : list Z := merge_sort Z.le x.

(** [a[start : start + len(l)] = l] on a one-dimensional array: the slice
    is clipped to the array, and [l] must have the slice's length or
    length 1. *)
Definition assign_slice (row : list Q) (start : nat) (l : list Q)
  : result (list Q) :=
  let start := (start `min` length row)%nat in
  let stop := ((start + length l) `min` length row)%nat in
  let m := (stop - start)%nat in
  if decide (length l = m) then ret (take start row ++ l ++ drop stop row)
  else match l with
       | [x] => ret (take start row ++ replicate m x ++ drop stop row)
       | _ => raise (ValueError "could not broadcast input array")
       end.

(** [a.swapaxes(0, 1)] of a matrix given by rows of length [n]. *)
Definition swapaxes (n : nat) (rows : list (list Q)) : list (list Q) :=
  map (fun k => map (fun r => nth k r 0%Q) rows) (seq 0 n).

(** ** The random generator

    [np.random.seed(seed)] fixes the sequence of raw draws; every call
    consumes the next ones.  Bounded integers and uniform fractions are
    read off the raw draws, so each lies in its range by construction. *)

Definition generator := Z -> nat -> N.

Definition randint_at (raw : nat -> N) (pos : nat) (low high : Z) : Z :=
  (low + Z.of_N (raw pos) mod (high - low))%Z.

Definition uniform_at (raw : nat -> N) (pos : nat) : Q :=
  (Z.of_N (raw pos) mod 2 ^ 53)%Z # (2 ^ 53).

(** [np.random.randint(low, high, (rows, cols))] from position [pos]. *)
Definition randint (raw : nat -> N) (pos : nat) (low high : Z) (rows cols : nat)
  : result (list (list Z)) :=
  if (low <? high)%Z
  then ret (map (fun i => map (fun j => randint_at raw (pos + i * cols + j) low high)
                            (seq 0 cols))
                (seq 0 rows))
  else raise (ValueError "low >= high").

(** ** Policy timing ([init_policy_dummies]) *)

(** [policy_ds]: the names, the lag ramp of every policy and the onset
    interval. *)
Record PolicyDs := {
  policy : list string;
  lag : list (list Q);
  interval_start : Z;
  interval_end : Z
}.

Record PolicyDummies := {
  policy_timeseries : list (list (list Q));   (* sample, t, policy *)
  random_end_arr : list Q                     (* sample *)
}.

(** [int(np.round(1 / ((t.max() - t.min()) / (t.shape[0] - 1))))] *)
Definition steps_per_day_of (t : list Q) : result Z :=
  match t with
  | [] => raise (ValueError "zero-size array to reduction operation maximum")
  | t0 :: rest =>
      let span := (Qmax_list t0 rest - Qmin_list t0 rest)%Q in
      if decide (length rest = 0)%nat
      then raise (ValueError "cannot convert float NaN to integer")
      else if Qeq_bool span 0
      then raise (ValueError "cannot convert float infinity to integer")
      else ret (round_half_even (1 / (span / inject_Z (Z.of_nat (length rest)))))
  end.

(** [len(np.unique(x)) == dates.shape[1]] *)
Definition no_collinearity (n_effects : nat) (x : list Z) : bool :=
  bool_decide (length (np_unique x) = n_effects).

(** Lines 98-112: draw twice as many onset vectors as samples, sort each,
    drop the collinear ones, check that enough are left and keep the first
    [n_samples].  [np.apply_along_axis] refuses an array with no row. *)
Definition drawn_dates (raw : nat -> N) (policy_ds : PolicyDs) (n_samples : nat)
  : result (list (list Z)) :=
  randint raw 0 (interval_start policy_ds) (interval_end policy_ds)
          (n_samples * 2) (length (policy policy_ds)).

Definition sample_dates (raw : nat -> N) (policy_ds : PolicyDs) (n_samples : nat)
  : result (list (list Z)) :=
  let n_effects := length (policy policy_ds) in
  let* dates := drawn_dates raw policy_ds n_samples in
  let dates := map np_sort dates in
  if decide (length dates = 0)%nat
  then raise (ValueError "Cannot apply_along_axis when any iteration dimensions are 0")
  else
    let valid := map (no_collinearity n_effects) dates in
    if bool_decide (n_samples < count_occ bool_dec valid true)%nat
    then
      let dates := map fst (filter (fun dv => snd dv = true) (zip dates valid)) in
      ret (take n_samples dates)
    else raise AssertionError.

(** The step function of one policy in one sample, and its lag ramp. *)
Definition step_dummy (n_steps : nat) (steps_per_day date : Z) : list Q :=
  map (fun k => if (date * steps_per_day <=? Z.of_nat k)%Z then 1%Q else 0%Q)
      (seq 0 n_steps).

Definition lag_steps (steps_per_day : Z) (this_lag : list Q) : list Q :=
  flat_map (fun i => replicate (Z.to_nat steps_per_day) i) this_lag.

Definition lagged_dummy (n_steps : nat) (steps_per_day : Z) (l : list Q) (date : Z)
  : result (list Q) :=
  let out := step_dummy n_steps steps_per_day date in
  let this_p_on := argmax out in
  assign_slice out this_p_on l.

Fixpoint mapM {A B} (f : A -> result B) (l : list A) : result (list B) :=
  match l with
  | [] => ret []
  | x :: l' => let* y := f x in let* ys := mapM f l' in ret (y :: ys)
  end.

(** The rows are adjusted sample by sample here and policy by policy in
    the source; every failure is the same [ValueError]. *)
Definition init_policy_dummies (gen : generator) (policy_ds : PolicyDs)
  (n_samples : nat) (t : list Q) (seed : Z) (random_end : bool)
  : result PolicyDummies :=
  let raw := gen seed in
  let n_effects := length (policy policy_ds) in
  let n_steps := length t in
  let* steps_per_day := steps_per_day_of t in
  let* dates := sample_dates raw policy_ds n_samples in
  let random_end_arr :=
    if random_end
    then map (fun s => uniform_at raw (n_samples * 2 * n_effects + s)) (seq 0 n_samples)
    else replicate n_samples 1%Q in
  let lags := map (lag_steps steps_per_day) (lag policy_ds) in
  let* out :=
    mapM (fun sample_dates =>
            mapM (fun '(l, date) => lagged_dummy n_steps steps_per_day l date)
                 (zip lags sample_dates))
         dates in
  ret {| policy_timeseries := map (swapaxes n_steps) out;
         random_end_arr := random_end_arr |}.

(** ** Rate/time conversion ([adjust_timescales_from_daily],
    [adjust_timescales_to_daily]) *)




Definition with_variables (ds : Dataset) (vs : gmap string DataArray) : Dataset :=
  {| t := t ds; sizes := sizes ds; coords := coords ds; variables := vs |}.












Fixpoint foldM {A B} (f : A -> B -> result A) (a : A) (l : list B) : result A :=
  match l with
  | [] => ret a
  | x :: l' => let* a' := f a x in foldM f a' l'
  end.



(** ** Stochastic parameters ([get_stochastic_discrete_params]) *)

(** Arithmetic on labelled arrays is element-wise, so the rate formulas
    apply to arrays as they are written. *)
#[export] Instance DataArray_arith : Arith DataArray := {|
  of_Z z := {| dims := []; values := fun _ => of_Z z |};
  add := map2_da xadd; sub := map2_da xsub;
  mul := map2_da xmul; div := map2_da xdiv;
  neg := map_da xneg; sqrt := map_da xsqrt
|}.

Definition scalar_da (x : xreal) : DataArray := {| dims := []; values := fun _ => x |}.

(** The Python values a noise selector may hold. *)
Inductive pyval := PyNone | PyBool (b : bool) | PyStr (s : string).

(** [not v] is [negb (truthy v)]. *)
Definition truthy (v : pyval) : bool :=
  match v with
  | PyNone => false
  | PyBool b => b
  | PyStr s => negb (bool_decide (s = EmptyString))
  end.

(** [v == s] for a string literal [s]. *)
Definition py_eq_str (v : pyval) (s : string) : bool :=
  match v with PyStr s' => bool_decide (s' = s) | _ => false end.

Definition py_str (v : pyval) : string :=
  match v with
  | PyNone => "None"
  | PyBool true => "True"
  | PyBool false => "False"
  | PyStr s => s
  end.

(** The raw variates the generator hands out: standard normal ones per
    parameter, sample and step, and standard exponential ones per
    parameter and cell. *)
Record Draws := {
  standard_normal : string -> nat -> nat -> R;
  standard_exponential : string -> index -> R
}.

Inductive warning := NonPhysicalDraws (total_neg : nat).

(** Every position of an array with the given dimensions. *)
Fixpoint indices (ds : Dataset) (ds_dims : list string) : list index :=
  match ds_dims with
  | [] => [fun _ => 0%nat]
  | d :: rest =>
      flat_map (fun ix => map (at_dim ix d) (seq 0 (dim_len ds d)))
               (indices ds rest)
  end.

(** [np.random.normal(0, sd, sampXtime)] as a [("sample", "t")] array. *)
Definition normal_noise (noise : Draws) (param : string) (sd : xreal)
  : result DataArray :=
  if xltb sd (Fin 0) then raise (ValueError "scale < 0")
  else ret {| dims := ["sample"; "t"]%string;
              values := fun ix =>
                (Fin 0 + sd * Fin (standard_normal noise param
                                     (ix "sample"%string) (ix "t"%string)))%A |}.

(** [np.random.exponential(det)] with the dimensions of [det]. *)
Definition exponential_noise (noise : Draws) (param : string) (ds : Dataset)
  (det : DataArray) : result DataArray :=
  if existsb (fun ix => xltb (values det ix) (Fin 0)) (indices ds (dims det))
  then raise (ValueError "scale < 0")
  else ret {| dims := dims det;
              values := fun ix =>
                (values det ix * Fin (standard_exponential noise param ix))%A |}.

(** [out.expand_dims("sample")]: a new axis of length 1 on every data
    variable. *)
Definition expand_dims_sample (ds : Dataset) : Dataset :=
  {| t := t ds;
     sizes := <["sample"%string := 1%nat]> (sizes ds);
     coords := coords ds;
     variables :=
       map_imap (fun k v =>
                   Some (if bool_decide (k ∈ coords ds) then v
                         else {| dims := "sample"%string :: dims v;
                                 values := values v |}))
                (variables ds) |}.

(** [np.exp(x) - 1] *)
Definition discretize (v : DataArray) : DataArray :=
  map_da (fun x => (xexp x - of_Z 1)%A) v.

(** The body of [for param in ["gamma", "sigma"]]. *)
Definition discretize_param (out : Dataset) (param : string) : result Dataset :=
  let det := (param +:+ "_deterministic")%string in
  let* out :=
    match variables out !! det with
    | Some _ => ret out
    | None => let* p := get_item out param in ret (set_item out det p)
    end in
  let* d := get_item out det in
  let out := set_item out det (discretize d) in
  let* p := get_item out param in
  ret (set_item out param (discretize p)).

(** One noise block: [normal], [exponential], off, and what the block
    does with any other selector ([on_unknown]). *)
Definition stoch_of (noise : Draws) (param : string) (out : Dataset)
  (det : DataArray) (noise_on : pyval) (noise_sd : xreal)
  (on_unknown : result Dataset) : result Dataset :=
  let stoch := (param +:+ "_stoch")%string in
  if py_eq_str noise_on "normal" then
    let* z := normal_noise noise param noise_sd in
    ret (set_item (set_item out stoch z) stoch (det + z)%A)
  else if py_eq_str noise_on "exponential" then
    let* e := exponential_noise noise param out det in
    ret (set_item out stoch e)
  else if negb (truthy noise_on) then ret (set_item out stoch det)
  else on_unknown.

(** [(out[out_vars] < 0).to_array().sum().item()]: the arrays are
    broadcast against each other before the negative entries are
    counted. *)
Definition count_negative (out : Dataset) (out_vars : list string) : result nat :=
  let* arrays := mapM (get_item out) out_vars in
  let all_dims := foldl union_dims [] (map dims arrays) in
  ret (sum_list (map (fun a =>
                        length (filter (fun ix => xltb (values a ix) (Fin 0) = true)
                                       (indices out all_dims)))
                     arrays)).

Definition rate_funcs (kind : string)
  : result ((DataArray -> DataArray -> DataArray -> DataArray)
            * (DataArray -> DataArray -> DataArray -> DataArray)) :=
  if bool_decide (kind = "SIR"%string)
  then ret (fun l g s => get_beta_SIR l g [s], fun b g s => get_lambda_SIR b g [s])
  else if bool_decide (kind = "SEIR"%string)
  then ret (get_beta_SEIR, get_lambda_SEIR)
  else raise (ValueError kind).

(** Lines 193-274: the dataset with the deterministic and the stochastic
    rates, and the names in [out_vars]. *)
Definition stochastic_arrays (noise : Draws)
  (estimates_ds : Dataset) (no_policy_growth_rate : xreal)
  (policy_effect_timeseries : DataArray) (t : list Q)
  (beta_noise_on : pyval) (beta_noise_sd : xreal) (kind : string)
  (gamma_noise_on : pyval) (gamma_noise_sd : xreal)
  (sigma_noise_on : pyval) (sigma_noise_sd : xreal)
  : result (Dataset * list string) :=
  let* (beta_func, lambda_func) := rate_funcs kind in
  let out := estimates_ds in
  (* this is the discrete short-timestep eigenvalue for a zero-mean beta *)
  let* tstep := match t with
                | t0 :: t1 :: _ => ret (xQ (t1 - t0))
                | _ => raise IndexError
                end in
  let out := set_item out "lambda_disc_meanbeta"
    (map_da (fun x => (xexp ((no_policy_growth_rate + x) * tstep) - of_Z 1)%A)
            policy_effect_timeseries) in
  let out := if in_dims "sample" out then out else expand_dims_sample out in
  let* out := foldM discretize_param out ["gamma"; "sigma"]%string in
  let out_vars := ["beta_stoch"; "gamma_stoch"]%string in
  let* lambda_disc_meanbeta := get_attr out "lambda_disc_meanbeta" in
  let* gamma := get_attr out "gamma" in
  let* sigma := get_attr out "sigma" in
  let out := set_item out "beta_deterministic"
                      (beta_func lambda_disc_meanbeta gamma sigma) in
  let* beta_deterministic := get_item out "beta_deterministic" in
  let* out := stoch_of noise "beta" out beta_deterministic beta_noise_on
                beta_noise_sd (raise (ValueError (py_str beta_noise_on))) in
  let* gamma_deterministic := get_attr out "gamma_deterministic" in
  let* out := stoch_of noise "gamma" out gamma_deterministic gamma_noise_on
                gamma_noise_sd (raise (ValueError (py_str gamma_noise_on))) in
  let* (out, out_vars) :=
    if in_dims "sigma" out then
      let out_vars := out_vars ++ ["sigma_stoch"%string] in
      let* sigma_deterministic := get_attr out "sigma_deterministic" in
      (* no [else] branch: an unknown selector leaves [out] as it is *)
      let* out := stoch_of noise "sigma" out sigma_deterministic sigma_noise_on
                    sigma_noise_sd (ret out) in
      ret (out, out_vars)
    else ret (out, out_vars) in
  let* beta_stoch := get_attr out "beta_stoch" in
  let* gamma_stoch := get_attr out "gamma_stoch" in
  let* sigma_stoch := get_attr out "sigma_stoch" in
  let out := set_item out "lambda_stoch"
                      (lambda_func beta_stoch gamma_stoch sigma_stoch) in
  ret (out, out_vars).

Definition get_stochastic_discrete_params (noise : Draws)
  (estimates_ds : Dataset) (no_policy_growth_rate : xreal)
  (policy_effect_timeseries : DataArray) (t : list Q)
  (beta_noise_on : pyval) (beta_noise_sd : xreal) (kind : string)
  (gamma_noise_on : pyval) (gamma_noise_sd : xreal)
  (sigma_noise_on : pyval) (sigma_noise_sd : xreal)
  : result (Dataset * list warning) :=
  let* (out, out_vars) :=
    stochastic_arrays noise estimates_ds no_policy_growth_rate
      policy_effect_timeseries t beta_noise_on beta_noise_sd kind
      gamma_noise_on gamma_noise_sd sigma_noise_on sigma_noise_sd in
  (* make sure none are non-positive *)
  let* total_neg := count_negative out out_vars in
  let warnings :=
    if decide (0 < total_neg)%nat then [NonPhysicalDraws total_neg] else [] in
  ret (out, warnings).

(** ** The pipeline ([simulate_and_regress]) *)

(** *** Setup (lines 444-456) *)





(** *** Coordinates of the coefficient tensor

    [init_reg_ds] labels the tensor with the sweep grids and the outcome
    names.  On the way to the regressions the [gamma] and [sigma]
    coordinates are rescaled value by value ([* tstep], [exp(x) - 1],
    [log((1 + x) ** (1 / tstep)).round(5)]); [LHS] is not touched. *)
Record RegCoords := {
  coord_sample : list nat;
  coord_gamma : list xreal;
  coord_sigma : list xreal;
  coord_LHS : list string;
  coord_policy : list string
}.



(** *** The regressions (lines 551-616) *)

(** What the driver reads of [daily_ds]. *)
Record DailyDs := {
  daily_t : list Q;
  daily_sample : nat;
  daily_gamma : list xreal;
  daily_sigma : list xreal;
  daily_LHS : list string;
  daily_policy : list string;
  daily_policy_timeseries : nat -> nat -> nat -> Q;       (* sample, t, policy *)
  daily_random_end : nat -> Q;                            (* sample *)
  daily_IR : nat -> nat -> nat -> nat -> xreal;           (* t, sample, gamma, sigma *)
  daily_logdiff : nat -> nat -> nat -> nat -> nat -> xreal (* LHS, t, sample, gamma, sigma *)
}.

(** [daily_ds.dims["t"]] *)
Definition n_t (d : DailyDs) : nat := length (daily_t d).
Definition days (d : DailyDs) : list nat := seq 0 (n_t d).
Definition policy_ixs (d : DailyDs) : list nat := seq 0 (length (daily_policy d)).

(** [(daily_ds.policy_timeseries > 0).astype(int)] *)
Definition RHS_old (d : DailyDs) (samp k p : nat) : Z :=
  if Qlt_le_dec 0 (daily_policy_timeseries d samp k p) then 1%Z else 0%Z.

(** [RHS_old.shift(t=l, fill_value=0)] *)
Definition shifted (d : DailyDs) (l : Z) (samp k p : nat) : Z :=
  let j := (Z.of_nat k - l)%Z in
  if bool_decide (0 <= j < Z.of_nat (n_t d))%Z then RHS_old d samp (Z.to_nat j) p
  else 0%Z.

(** A row of [RHS_ds]: the intercept, then every policy at every lag. *)
Definition RHS_row (d : DailyDs) (reg_lag_days : list Z) (samp k : nat)
  : list xreal :=
  Fin 1 :: flat_map (fun l => map (fun p => Fin (IZR (shifted d l samp k p)))
                                  (policy_ixs d))
                    reg_lag_days.

(** [daily_ds.IR >= min_cases / pop] *)
Definition valid_reg (d : DailyDs) (min_cases pop : xreal) (k samp gx sx : nat)
  : bool :=
  xleb (min_cases / pop)%A (daily_IR d k samp gx sx).

(** [(RHS_old > 0).max(dim="policy")] *)
Definition any_policy_on (d : DailyDs) (samp k : nat) : bool :=
  existsb (fun p => (0 <? RHS_old d samp k p)%Z) (policy_ixs d).

(** only run regression if we have at least one "no-policy" day *)
Definition no_pol_on_regday0 (d : DailyDs) (min_cases pop : xreal)
  (samp gx sx : nat) : bool :=
  bool_decide
    (argmax_bool (map (fun k => valid_reg d min_cases pop k samp gx sx) (days d))
     < argmax_bool (map (any_policy_on d samp) (days d)))%nat.

(** [(daily_ds.policy_timeseries.sum(dim="policy") == 3).argmax(dim="t")] *)
Definition last_pol (d : DailyDs) (samp : nat) : nat :=
  argmax_bool
    (map (fun k =>
            Qeq_bool (foldr Qplus 0%Q (map (daily_policy_timeseries d samp k)
                                         (policy_ixs d)))
                     3%Q)
         (days d)).

(** find random last day to end regression, starting with 1 day after
    last policy is implemented *)
Definition last_reg_day (d : DailyDs) (random_end : bool) (samp : nat) : Z :=
  if random_end then
    (round_half_even
       (inject_Z (Z.of_nat (n_t d) - (Z.of_nat (last_pol d samp) + 1))
        * daily_random_end d samp)
     + Z.of_nat (last_pol d samp) + 1)%Z
  else Z.of_nat (n_t d).

(** The days of one cell that enter its fit. *)
Definition this_valid (d : DailyDs) (min_cases pop : xreal) (random_end : bool)
  (samp gx sx k : nat) : bool :=
  valid_reg d min_cases pop k samp gx sx
  && (if random_end
      then Qle_bool (nth k (daily_t d) 0%Q) (inject_Z (last_reg_day d true samp))
      else true).

Definition cell : Type := nat * nat * nat * nat.   (* gx, sx, samp, cx *)

(** The coefficient tensor and the fits made so far. *)
Record RegState := {
  estimates : cell -> list xreal;
  fitted : list cell
}.

Section Regressions.

(** statsmodels: [OLS(LHS, RHS, missing="drop").fit().params] and
    [add_constant]. *)
Variable OLS : list xreal -> list (list xreal) -> result (list xreal).
Variable add_constant : list (list xreal) -> list (list xreal).

Variables (d : DailyDs) (reg_lag_days : list Z) (min_cases pop : xreal)
  (random_end : bool).

(** [np.empty(...)] followed by [estimates.fill(np.nan)] *)
Definition estimates0 : cell -> list xreal :=
  fun _ => replicate (length (daily_policy d) * length reg_lag_days + 1) NaN.

(** The body of the innermost loop. *)
Definition regress_cell (cx gx sx : nat) (st : RegState) (samp : nat)
  : result RegState :=
  if no_pol_on_regday0 d min_cases pop samp gx sx then
    let valid_days :=
      filter (fun k => this_valid d min_cases pop random_end samp gx sx k = true)
             (days d) in
    let LHS := map (fun k => daily_logdiff d cx k samp gx sx) valid_days in
    let RHS := add_constant (map (RHS_row d reg_lag_days samp) valid_days) in
    let* params := OLS LHS RHS in
    ret {| estimates := fun c => if decide (c = (gx, sx, samp, cx)) then params
                                 else estimates st c;
           fitted := fitted st ++ [(gx, sx, samp, cx)] |}
  else ret st.

(** loop through regressions *)
Definition regress_all : result RegState :=
  if decide (length (daily_policy d) = 0)%nat then raise IndexError else
  if decide (n_t d = 0)%nat
  then raise (ValueError "attempt to get argmax of an empty sequence") else
  foldM (fun st cx =>
    foldM (fun st gx =>
      foldM (fun st sx =>
        foldM (regress_cell cx gx sx) st (seq 0 (daily_sample d)))
      st (seq 0 (length (daily_sigma d))))
    st (seq 0 (length (daily_gamma d))))
  {| estimates := estimates0; fitted := [] |}
  (seq 0 (length (daily_LHS d))).

(** The labels of the tensor that is returned. *)
Definition coefficient_coords : RegCoords :=
  {| coord_sample := seq 0 (daily_sample d);
     coord_gamma := daily_gamma d; coord_sigma := daily_sigma d;
     coord_LHS := daily_LHS d; coord_policy := daily_policy d |}.

End Regressions.

(** ** Vocabulary of the statements *)






(** *** Concrete inputs *)


Definition const_da (ds_dims : list string) (x : R) : DataArray :=
  {| dims := ds_dims; values := fun _ => Fin x |}.

(** Three time steps with constant rates. *)
Definition example_rates : Dataset :=
  {| t := [0; 1; 2]%Q; sizes := ∅; coords := ∅;
     variables := <["beta_stoch"%string := const_da ["t"%string] (3 / 10)]>
                  (<["gamma_stoch"%string := const_da ["t"%string] (1 / 10)]>
                  (<["sigma_stoch"%string := const_da ["t"%string] (1 / 5)]> ∅)) |}.

(** The vectors in which no two policies share an onset day. *)
Definition collinearity_free (dates : list (list Z)) : list (list Z) :=
  filter (fun x => NoDup x) dates.

(** The draw has twice as many vectors as samples, one day per policy,
    every day within [[start, end)]. *)
Definition drawn_ok (policy_ds : PolicyDs) (n_samples : nat)
  (drawn : list (list Z)) : Prop :=
  length drawn = (2 * n_samples)%nat
  /\ Forall (fun x => length x = length (policy policy_ds)
                      /\ Forall (fun d => (interval_start policy_ds <= d
                                           < interval_end policy_ds)%Z) x)
            drawn.

(** A generator whose raw draws are 0, 7, 14, ... and three policies with
    onsets in [[20, 40)]. *)
Definition example_generator : generator := fun seed k => N.of_nat (k * 7).

Definition example_policies : PolicyDs :=
  {| policy := ["p1"; "p2"; "p3"]%string;
     lag := [[1%Q]; [1%Q]; [1%Q]];
     interval_start := 20; interval_end := 40 |}.

(** [np.linspace(0, 1, n_days * tsteps_per_day + 1) * n_days] *)
Definition time_grid (n_days tsteps_per_day : nat) : list Q :=
  map (fun k => Z.of_nat k # Pos.of_nat tsteps_per_day)
      (seq 0 (n_days * tsteps_per_day + 1)).








(** ** Vocabulary and examples for the stochastic parameters *)



Definition is_ok {A} (m : result A) : bool :=
  match m with inr _ => true | inl _ => false end.




Definition coord_da (d : string) (x : xreal) : DataArray :=
  {| dims := [d]; values := fun _ => x |}.

(** One sample, two daily steps, one gamma and one sigma value. *)
Definition example_estimates (gamma sigma : xreal) : Dataset :=
  {| t := [0; 1]%Q;
     sizes := <["sample"%string := 1%nat]>
              (<["gamma"%string := 1%nat]> (<["sigma"%string := 1%nat]> ∅));
     coords := {["gamma"%string; "sigma"%string]};
     variables := <["gamma"%string := coord_da "gamma" gamma]>
                  (<["sigma"%string := coord_da "sigma" sigma]> ∅) |}.

Definition no_policy_effect : DataArray :=
  {| dims := ["sample"; "t"]%string; values := fun _ => Fin 0 |}.

Definition no_draws : Draws :=
  {| standard_normal := fun _ _ _ => 0%R; standard_exponential := fun _ _ => 1%R |}.


Definition example_call (estimates_ds : Dataset) (kind : string)
  (beta_noise_on gamma_noise_on sigma_noise_on : pyval) :=
  get_stochastic_discrete_params no_draws estimates_ds (Fin 0) no_policy_effect
    [0; 1]%Q beta_noise_on (Fin 0) kind gamma_noise_on (Fin 0)
    sigma_noise_on (Fin 0).

Definition noise_off : pyval := PyBool false.


Definition seir_estimates : Dataset := example_estimates (Fin (1 / 10)) (Fin (1 / 5)).

(** A selector the noise blocks know: ["normal"], ["exponential"] or a
    false value. *)
Definition known_noise (v : pyval) : Prop :=
  py_eq_str v "normal" = true \/ py_eq_str v "exponential" = true
  \/ truthy v = false.

(** ** Vocabulary and examples for the regressions *)

(** The day the last policy turns on, as line 528 computes it:
    [(policy_timeseries > 0).argmax(dim="t").max(dim="policy")]. *)
Definition last_policy_onset (d : DailyDs) (samp : nat) : nat :=
  foldr Nat.max 0%nat
    (map (fun p => argmax_bool (map (fun k => (0 <? RHS_old d samp k p)%Z) (days d)))
         (policy_ixs d)).

(** Ten daily observations of one sample; policy [p] is off before day
    [onsets[p]] and fully on from then on; nobody is ever infected. *)
Definition step_policies (names : list string) (onsets : list nat) (fraction : Q)
  : DailyDs :=
  {| daily_t := map (fun k => inject_Z (Z.of_nat k)) (seq 0 10);
     daily_sample := 1;
     daily_gamma := [Fin (1 / 10)];
     daily_sigma := [NaN];
     daily_LHS := ["I"%string];
     daily_policy := names;
     daily_policy_timeseries := fun _ k p =>
       match onsets !! p with
       | Some o => if (o <=? k)%nat then 1%Q else 0%Q
       | None => 0%Q
       end;
     daily_random_end := fun _ => fraction;
     daily_IR := fun _ _ _ _ => Fin 0;
     daily_logdiff := fun _ _ _ _ _ => NaN |}.

Definition two_policies : DailyDs :=
  step_policies ["p1"; "p2"]%string [2; 5]%nat 0%Q.

Definition three_policies : DailyDs :=
  step_policies ["p1"; "p2"; "p3"]%string [2; 5; 7]%nat (1 # 2)%Q.

(** The state a fit of the cell leaves behind. *)
Definition with_fit (st : RegState) (c : cell) (params : list xreal) : RegState :=
  {| estimates := fun c' => if decide (c' = c) then params else estimates st c';
     fitted := fitted st ++ [c] |}.

(** Every cell without a fit is still all NaN, and every fit passed the
    test of [no_pol_on_regday0]. *)
Definition unfitted_missing (d : DailyDs) (reg_lag_days : list Z)
  (min_cases pop : xreal) (st : RegState) : Prop :=
  (forall c, c ∉ fitted st -> estimates st c = estimates0 d reg_lag_days c)
  /\ (forall gx sx samp cx, (gx, sx, samp, cx) ∈ fitted st ->
        no_pol_on_regday0 d min_cases pop samp gx sx = true).



(** ** Vocabulary for the trajectories of the simulators *)

(** Rows [0..k] of the SIR state satisfy [Q]. *)
Definition SIR_rows (Q : nat -> index -> xreal -> xreal -> xreal -> Prop)
  (k : nat) (st : SIR_state) : Prop :=
  forall j ix, (j <= k)%nat -> Q j ix (sir_S st j ix) (sir_I st j ix) (sir_R st j ix).


(** The value of a variable of a dataset at one position. *)
Definition value_of (ds : Dataset) (name : string) (ix : index) : option xreal :=
  (fun v => values v ix) <$> variables ds !! name.

(** A position on the time axis of the dataset. *)
Definition on_t (ds : Dataset) (ix : index) : Prop :=
  (ix "t"%string < length (t ds))%nat.

(** Three time steps; the transmission rate is NaN at every step. *)
Definition example_rates_NaN : Dataset :=
  set_item example_rates "beta_stoch" {| dims := ["t"%string]; values := fun _ => NaN |}.

(** The real a finite value holds. *)
Definition real_of (x : xreal) : R := match x with Fin r => r | NaN => 0%R end.






(** ** Vocabulary for the policy dummies *)

(** The dummy of a policy at step [k]: 0 before the onset, the lag value
    of the day since the onset while the ramp lasts, 1 afterwards. *)
Definition dummy_value (steps_per_day : Z) (this_lag : list Q) (date : Z) (k : nat) : Q :=
  if (Z.of_nat k <? date * steps_per_day)%Z then 0%Q
  else match this_lag !! Z.to_nat ((Z.of_nat k - date * steps_per_day) / steps_per_day) with
       | Some x => x
       | None => 1%Q
       end.

(** Three policies; the first takes forty days to reach its full effect. *)
Definition long_ramp_policies : PolicyDs :=
  {| policy := ["p1"; "p2"; "p3"]%string;
     lag := [replicate 40 (1 # 2)%Q; [1%Q]; [1%Q]];
     interval_start := 20; interval_end := 40 |}.

(** Three policies that must start within two days. *)
Definition narrow_policies : PolicyDs :=
  {| policy := ["p1"; "p2"; "p3"]%string;
     lag := [[1%Q]; [1%Q]; [1%Q]];
     interval_start := 20; interval_end := 22 |}.

(** ** Vocabulary for the rate conversions *)

(** The sum of a list of reals. *)
Definition Rsum (l : list R) : R := foldr Rplus 0%R l.





(** ** Vocabulary for the deterministic parameters *)

(** The dataset [get_stochastic_discrete_params] works on after the growth
    rate is stored and the sample axis is there. *)
Definition with_growth (estimates_ds : Dataset) (lam : DataArray) : Dataset :=
  let out := set_item estimates_ds "lambda_disc_meanbeta" lam in
  if in_dims "sample" out then out else expand_dims_sample out.

(** [exp((no_policy_growth_rate + policy_effect) * tstep) - 1] *)
Definition growth_disc (no_policy_growth_rate : xreal) (policy_effect : DataArray)
  (tstep : xreal) : DataArray :=
  map_da (fun x => (xexp ((no_policy_growth_rate + x) * tstep) - of_Z 1)%A) policy_effect.

(** ** The true policy effects ([get_true_pol_effects]) *)

(** The entries that are not NaN: what a reduction with [skipna] sees. *)
Definition notnull (l : list xreal) : list R :=
  omap (fun x => match x with Fin r => Some r | NaN => None end) l.

(** [.mean(dim)] of floats skips NaN; the mean of nothing is NaN. *)
Definition nanmean (l : list xreal) : xreal :=
  match notnull l with
  | [] => NaN
  | rs => Fin (Rsum rs / INR (length rs))
  end.

(** [.sum(dim)] of floats skips NaN; the sum of nothing is 0. *)
Definition nansum (l : list xreal) : xreal := Fin (Rsum (notnull l)).

(** [lambda_stoch] of sample [s] at step [k], in the cell [ix] of the
    other dimensions. *)
Definition lambda_at (lambda_stoch : DataArray) (ix : index) (s k : nat) : xreal :=
  values lambda_stoch (at_dim (at_dim ix "sample" s) "t" k).

(** [.sel(t=slice(None, first_pol)).isel(t=slice(None, -20))]: the steps up
    to the first possible onset day, without the last 20 of them. *)
Definition no_pol_steps (t : list Q) (first_pol : Z) : list nat :=
  let upto := filter (fun k => Qle_bool (nth k t 0%Q) (inject_Z first_pol) = true)
                     (seq 0 (length t)) in
  take (length upto - 20) upto.

(** [policy_timeseries.isel(policy=slice(px, None)).sum(dim="policy") == 1] *)
Definition regime_valid (policy_timeseries : nat -> nat -> nat -> Q)
  (n_policies px s k : nat) : bool :=
  Qeq_bool (foldr Qplus 0%Q (map (policy_timeseries s k) (seq px (n_policies - px)))) 1.

Section TruePolEffects.
Variables (t : list Q) (first_pol : Z) (n_samples n_policies : nat)
  (lambda_stoch : DataArray) (policy_timeseries : nat -> nat -> nat -> Q).

(** The values entry [j] of the concatenation averages for sample [s]:
    [no_pol] for [j = 0], [lambda_stoch.where(valid)] of policy [j - 1]
    otherwise. *)
Definition regime_values (j : nat) (ix : index) (s : nat) : list xreal :=
  match j with
  | 0%nat => map (lambda_at lambda_stoch ix s) (no_pol_steps t first_pol)
  | S px =>
      map (fun k => if regime_valid policy_timeseries n_policies px s k
                    then lambda_at lambda_stoch ix s k else NaN)
          (seq 0 (length t))
  end.

(** [lambdas]: the mean over [t]. *)
Definition regime_lambda (j : nat) (ix : index) (s : nat) : xreal :=
  nanmean (regime_values j ix s).

(** [weights]: [xr.ones_like(no_pol).sum(dim="t")] for [j = 0],
    [valid_vals.notnull().sum(dim="t")] otherwise. *)
Definition regime_weight (j : nat) (ix : index) (s : nat) : R :=
  match j with
  | 0%nat => INR (length (no_pol_steps t first_pol))
  | S _ => INR (length (notnull (regime_values j ix s)))
  end.

(** [(lambdas * weights).sum(dim="sample") / weights.sum(dim="sample")] *)
Definition weighted_lambda (j : nat) (ix : index) : xreal :=
  let samples := seq 0 n_samples in
  xdiv (nansum (map (fun s => (regime_lambda j ix s * Fin (regime_weight j ix s))%A)
                    samples))
       (Fin (Rsum (map (regime_weight j ix) samples))).

(** [intercept_true] is entry 0, [effect_true] the difference of
    consecutive entries along [policy]. *)
Definition get_true_pol_effects : DataArray * DataArray :=
  let rest := filter (fun d => d ≠ "sample"%string /\ d ≠ "t"%string)
                     (dims lambda_stoch) in
  ({| dims := rest; values := fun ix => weighted_lambda 0 ix |},
   {| dims := "policy"%string :: rest;
      values := fun ix =>
        (weighted_lambda (S (ix "policy"%string)) ix
         - weighted_lambda (ix "policy"%string) ix)%A |}).

(** The steps of sample [s] that entry [j] averages over. *)
Definition regime_steps (j s : nat) : list nat :=
  match j with
  | 0%nat => no_pol_steps t first_pol
  | S px => filter (fun k => regime_valid policy_timeseries n_policies px s k = true)
                   (seq 0 (length t))
  end.

(** The sum and the number of the values entry [j] pools over all
    samples. *)
Definition pooled_sum (j : nat) (ix : index) : R :=
  Rsum (map (fun s => Rsum (map (fun k => real_of (lambda_at lambda_stoch ix s k))
                                (regime_steps j s)))
            (seq 0 n_samples)).

Definition pooled_count (j : nat) : R :=
  Rsum (map (fun s => INR (length (regime_steps j s))) (seq 0 n_samples)).

End TruePolEffects.

(** Thirty daily steps, two samples, one policy that is on from day 25
    (sample 0) and day 27 (sample 1); the growth rate is 0.3 without and
    0.1 with the policy. *)
Definition example_onset (s : nat) : nat := if decide (s = 0)%nat then 25%nat else 27%nat.

Definition example_regimes : nat -> nat -> nat -> Q :=
  fun s k _ => if (example_onset s <=? k)%nat then 1%Q else 0%Q.

Definition example_lambda : DataArray :=
  {| dims := ["sample"; "t"]%string;
     values := fun ix =>
       if (example_onset (ix "sample"%string) <=? ix "t"%string)%nat
       then Fin (1 / 10) else Fin (3 / 10) |}.

Definition example_days (n : nat) : list Q :=
  map (fun k => inject_Z (Z.of_nat k)) (seq 0 n).


(** ** Vocabulary for the regression loops *)





(** Three step policies with onsets [o 0], [o 1], [o 2] in one sample. *)
Definition step_policy_timeseries (o : nat -> nat) : nat -> nat -> nat -> Q :=
  fun _ k p => if (o p <=? k)%nat then 1%Q else 0%Q.

(** * Properties *)

(** ** Facts about real numbers and comparisons *)

Section RealFacts.
Local Open Scope R_scope.

Lemma Rltb_true x y : x < y -> Rltb x y = true.
Proof. intros. unfold Rltb. destruct (Rlt_dec x y); [done|lra]. Qed.



Lemma Rleb_false x y : y < x -> Rleb x y = false.
Proof. intros. unfold Rleb. destruct (Rle_dec x y); [lra|done]. Qed.

Lemma Reqb_true x y : x = y -> Reqb x y = true.
Proof. intros. unfold Reqb. destruct (Req_dec_T x y); [done|done]. Qed.

Lemma Reqb_false x y : x <> y -> Reqb x y = false.
Proof. intros. unfold Reqb. destruct (Req_dec_T x y); [done|done]. Qed.





End RealFacts.

(** ** The rate pairs ([get_beta_*], [get_lambda_*]) *)






(** ** The simulators keep the fractions summing to one *)

Lemma set_row_eq A i row : set_row A i row i = row.
Proof. unfold set_row. by rewrite decide_True. Qed.

Lemma set_row_ne A i j row : j ≠ i -> set_row A i row j = A j.
Proof. intros. unfold set_row. by rewrite decide_False. Qed.

Section SIR_invariant.
Variables (beta gamma : ndarray) (n : nat).
Hypothesis beta_finite : forall i ix, (i < n)%nat -> is_finite (beta i ix).
Hypothesis gamma_finite : forall i ix, (i < n)%nat -> is_finite (gamma i ix).




End SIR_invariant.

Section SEIR_invariant.
Variables (beta gamma sigma : ndarray) (n : nat).
Hypothesis beta_finite : forall i ix, (i < n)%nat -> is_finite (beta i ix).
Hypothesis gamma_finite : forall i ix, (i < n)%nat -> is_finite (gamma i ix).
Hypothesis sigma_finite : forall i ix, (i < n)%nat -> is_finite (sigma i ix).




End SEIR_invariant.



Lemma forallb_dims_subset (b a : DataArray) :
  Forall (fun d => d ∈ dims b) (dims a) ->
  forallb (fun d => bool_decide (d ∈ dims b)) (dims a) = true.
Proof.
  intros Ha. apply forallb_forall. intros d Hd. apply bool_decide_eq_true.
  eapply (proj1 (Forall_forall _ _) Ha). by apply list_elem_of_In.
Qed.


(** The simulators return whenever the rates are there, [beta_stoch] has a
    time axis, the other rates broadcast to it and there is a first step. *)
Lemma run_SIR_returns I0 R0 ds b g :
  variables ds !! "beta_stoch"%string = Some b ->
  variables ds !! "gamma_stoch"%string = Some g ->
  "t"%string ∈ dims b -> Forall (fun d => d ∈ dims b) (dims g) -> t ds ≠ [] ->
  returns (run_SIR I0 R0 ds).
Proof.
  intros Eb Eg Ht Hsub Hne. unfold run_SIR, beta_rows, rate_rows, get_attr.
  rewrite Eb. cbn. rewrite bool_decide_true by done. cbn. rewrite Eg. cbn.
  rewrite (forallb_dims_subset b g Hsub). cbn.
  destruct (decide _) as [H0|]; [|by eexists].
  destruct (t ds); [done|discriminate].
Qed.


Lemma run_SEIR_returns E0 I0 R0 ds b g sg :
  variables ds !! "beta_stoch"%string = Some b ->
  variables ds !! "gamma_stoch"%string = Some g ->
  variables ds !! "sigma_stoch"%string = Some sg ->
  "t"%string ∈ dims b -> Forall (fun d => d ∈ dims b) (dims g) ->
  Forall (fun d => d ∈ dims b) (dims sg) -> t ds ≠ [] ->
  returns (run_SEIR E0 I0 R0 ds).
Proof.
  intros Eb Eg Es Ht Hg Hs Hne. unfold run_SEIR, beta_rows, rate_rows, get_attr.
  rewrite Eb. cbn. rewrite bool_decide_true by done. cbn. rewrite Eg. cbn.
  rewrite (forallb_dims_subset b g Hg). cbn. rewrite Es. cbn.
  rewrite (forallb_dims_subset b sg Hs). cbn.
  destruct (decide _) as [H0|]; [|by eexists].
  destruct (t ds); [done|discriminate].
Qed.





(** ** Sampling the onset dates ([init_policy_dummies]) *)

Lemma bind_inr {A B} (m : result A) (k : A -> result B) b :
  bind m k = inr b -> exists a, m = inr a /\ k a = inr b.
Proof. destruct m as [e|a]; cbn; [discriminate|]. eauto. Qed.

Lemma mapM_length {A B} (f : A -> result B) l ys :
  mapM f l = inr ys -> length ys = length l.
Proof.
  revert ys. induction l as [|x l IH]; intros ys H; cbn in H.
  - by injection H as <-.
  - apply bind_inr in H as (y & _ & H). apply bind_inr in H as (ys' & Hys & H).
    injection H as <-. cbn. f_equal. by apply IH.
Qed.

Lemma randint_at_range raw pos low high :
  (low < high)%Z -> (low <= randint_at raw pos low high < high)%Z.
Proof.
  intros H. unfold randint_at.
  pose proof (Z.mod_pos_bound (Z.of_N (raw pos)) (high - low) ltac:(lia)). lia.
Qed.

Lemma randint_spec raw pos low high rows cols :
  (low < high)%Z ->
  exists M, randint raw pos low high rows cols = inr M
    /\ length M = rows
    /\ Forall (fun x => length x = cols
                        /\ Forall (fun d => (low <= d < high)%Z) x) M.
Proof.
  intros H. unfold randint. rewrite (proj2 (Z.ltb_lt _ _) H).
  eexists. split; [reflexivity|]. split.
  - by rewrite length_map, length_seq.
  - apply Forall_forall. intros x Hx.
    apply list_elem_of_In, in_map_iff in Hx as (i & <- & _).
    split; [by rewrite length_map, length_seq|].
    apply Forall_forall. intros dd Hd.
    apply list_elem_of_In, in_map_iff in Hd as (j & <- & _).
    by apply randint_at_range.
Qed.

Lemma np_sort_Permutation x : np_sort x ≡ₚ x.
Proof. apply merge_sort_Permutation. Qed.

Lemma np_sort_Sorted x : Sorted Z.le (np_sort x).
Proof. apply (Sorted_merge_sort Z.le). Qed.

Lemma remove_dups_length_le {A} `{EqDecision A} (l : list A) :
  (length (remove_dups l) <= length l)%nat.
Proof.
  induction l as [|x l IH]; cbn; [done|]. case_decide; cbn; lia.
Qed.

Lemma remove_dups_length_NoDup {A} `{EqDecision A} (l : list A) :
  length (remove_dups l) = length l <-> NoDup l.
Proof.
  induction l as [|x l IH]; cbn.
  - split; [constructor|done].
  - pose proof (remove_dups_length_le l). case_decide as Hx; cbn.
    + split; [lia|]. intros Hnd. by apply NoDup_cons in Hnd as [? _].
    + split.
      * intros Hl. apply NoDup_cons. split; [done|]. apply IH. lia.
      * intros Hnd. apply NoDup_cons in Hnd as [_ Hnd]. f_equal. by apply IH.
Qed.

(** A vector passes [len(np.unique(x)) == dates.shape[1]] exactly when no
    two policies share an onset day. *)
Lemma no_collinearity_NoDup (x : list Z) :
  no_collinearity (length x) x = true <-> NoDup x.
Proof.
  unfold no_collinearity, np_unique. rewrite bool_decide_eq_true.
  rewrite (Permutation_length (merge_sort_Permutation Z.le (remove_dups x))).
  apply remove_dups_length_NoDup.
Qed.

(** [dates[valid]] keeps the rows whose mask entry is set. *)
Lemma filter_zip_mask {A} (f : A -> bool) (l : list A) :
  map fst (filter (fun dv => snd dv = true) (zip l (map f l)))
  = filter (fun x => f x = true) l.
Proof.
  induction l as [|x l IH]; [done|].
  change (zip (x :: l) (map f (x :: l))) with ((x, f x) :: zip l (map f l)).
  rewrite !filter_cons. cbn [snd]. destruct (f x) eqn:E.
  - rewrite !decide_True by done. cbn. by f_equal.
  - rewrite !decide_False by done. done.
Qed.

(** [valid.sum()] *)
Lemma count_mask {A} (f : A -> bool) (l : list A) :
  count_occ bool_dec (map f l) true = length (filter (fun x => f x = true) l).
Proof.
  induction l as [|x l IH]; [done|]. rewrite filter_cons. cbn [map count_occ].
  destruct (f x) eqn:E.
  - destruct (bool_dec true true); [|done]. rewrite decide_True by done.
    cbn. by f_equal.
  - destruct (bool_dec false true); [done|]. by rewrite decide_False by done.
Qed.

Lemma filter_ext_Forall {A} (P Q : A -> Prop) `{!forall x, Decision (P x)}
  `{!forall x, Decision (Q x)} (l : list A) :
  Forall (fun x => P x <-> Q x) l -> filter P l = filter Q l.
Proof.
  induction 1 as [|x l Hx Hl IH]; [done|]. rewrite !filter_cons.
  destruct (decide (P x)), (decide (Q x)); try tauto; by f_equal.
Qed.

Lemma drawn_dates_inr raw policy_ds n_samples drawn :
  drawn_dates raw policy_ds n_samples = inr drawn ->
  (interval_start policy_ds < interval_end policy_ds)%Z
  /\ drawn_ok policy_ds n_samples drawn.
Proof.
  intros H. unfold drawn_dates in H.
  destruct (Z.ltb_spec (interval_start policy_ds) (interval_end policy_ds))
    as [Hlt|Hge].
  - split; [done|].
    destruct (randint_spec raw 0 _ _ (n_samples * 2) (length (policy policy_ds)) Hlt)
      as (M & HM & Hlen & Hall).
    rewrite HM in H. injection H as <-. split; [lia|done].
  - unfold randint in H. rewrite (proj2 (Z.ltb_ge _ _) Hge) in H. discriminate.
Qed.

Lemma valid_rows_are_collinearity_free policy_ds n_samples drawn :
  drawn_ok policy_ds n_samples drawn ->
  filter (fun x => no_collinearity (length (policy policy_ds)) x = true)
         (map np_sort drawn)
  = collinearity_free (map np_sort drawn).
Proof.
  intros [_ Hall]. apply filter_ext_Forall, Forall_map.
  eapply Forall_impl; [exact Hall|]. intros x [Hlen _]. cbn.
  rewrite <- Hlen, <- (Permutation_length (np_sort_Permutation x)).
  apply no_collinearity_NoDup.
Qed.

(** What [sample_dates] does once the draw succeeded on at least one row. *)
Lemma sample_dates_spec raw policy_ds n_samples drawn :
  drawn_dates raw policy_ds n_samples = inr drawn -> (0 < n_samples)%nat ->
  sample_dates raw policy_ds n_samples
  = if decide (n_samples < length (collinearity_free (map np_sort drawn)))%nat
    then inr (take n_samples (collinearity_free (map np_sort drawn)))
    else inl AssertionError.
Proof.
  intros Hd Hn. pose proof (drawn_dates_inr _ _ _ _ Hd) as [_ Hok].
  unfold sample_dates. rewrite Hd. cbn [bind].
  rewrite decide_False by (rewrite length_map; destruct Hok; lia).
  rewrite count_mask, filter_zip_mask, (valid_rows_are_collinearity_free _ _ _ Hok).
  destruct (decide _); [by rewrite bool_decide_true|by rewrite bool_decide_false].
Qed.

Lemma sample_dates_inr raw policy_ds n_samples dates :
  sample_dates raw policy_ds n_samples = inr dates ->
  exists drawn,
    drawn_dates raw policy_ds n_samples = inr drawn
    /\ (n_samples < length (collinearity_free (map np_sort drawn)))%nat
    /\ dates = take n_samples (collinearity_free (map np_sort drawn)).
Proof.
  intros H. unfold sample_dates in H. apply bind_inr in H as (drawn & Hd & H).
  exists drawn. split; [done|].
  pose proof (drawn_dates_inr _ _ _ _ Hd) as [_ Hok].
  destruct (decide (length (map np_sort drawn) = 0)%nat); [discriminate|].
  rewrite count_mask, filter_zip_mask,
    (valid_rows_are_collinearity_free _ _ _ Hok) in H.
  case_bool_decide; [|discriminate]. injection H as <-. done.
Qed.

(** C2.  [init_policy_dummies] draws [2 * n_samples] onset vectors with
    every day in [[start, end)], sorts each vector ascending, rejects every
    vector in which two policies share an onset day, fails with an
    assertion error unless strictly more than [n_samples] vectors are
    left, and then keeps exactly the first [n_samples] of them; whenever
    it returns, it returns [n_samples] samples.  (The generator is an
    arbitrary stream of raw draws; for a call that asks for at least one
    sample from a non-empty interval.) *)
Theorem onset_dates_are_sampled_sorted_and_filtered :
  (forall gen policy_ds n_samples t seed random_end out,
     init_policy_dummies gen policy_ds n_samples t seed random_end = inr out ->
     length (policy_timeseries out) = n_samples
     /\ length (random_end_arr out) = n_samples
     /\ exists drawn,
          drawn_dates (gen seed) policy_ds n_samples = inr drawn
          /\ (n_samples < length (collinearity_free (map np_sort drawn)))%nat)
  /\
  (forall (gen : generator) policy_ds n_samples t seed random_end,
     (interval_start policy_ds < interval_end policy_ds)%Z ->
     (0 < n_samples)%nat ->
     exists drawn,
       drawn_dates (gen seed) policy_ds n_samples = inr drawn
       /\ drawn_ok policy_ds n_samples drawn
       /\ Forall (fun x => Sorted Z.le (np_sort x) /\ np_sort x ≡ₚ x) drawn
       /\ (if decide (n_samples
                      < length (collinearity_free (map np_sort drawn)))%nat
           then sample_dates (gen seed) policy_ds n_samples
                = inr (take n_samples (collinearity_free (map np_sort drawn)))
                /\ length (take n_samples (collinearity_free (map np_sort drawn)))
                   = n_samples
           else sample_dates (gen seed) policy_ds n_samples = inl AssertionError
                /\ forall spd, steps_per_day_of t = inr spd ->
                     init_policy_dummies gen policy_ds n_samples t seed random_end
                     = inl AssertionError)).
Proof.
  split.
  - intros * H. unfold init_policy_dummies in H.
    apply bind_inr in H as (spd & _ & H).
    apply bind_inr in H as (dates & Hdates & H).
    apply bind_inr in H as (rows & Hrows & H). injection H as <-. cbn.
    apply sample_dates_inr in Hdates as (drawn & Hd & Hlt & ->).
    apply mapM_length in Hrows. rewrite length_take in Hrows.
    repeat split.
    + rewrite length_map. lia.
    + destruct random_end;
        [by rewrite length_map, length_seq|by rewrite length_replicate].
    + eauto.
  - intros * Hlt Hn. unfold drawn_dates at 1.
    destruct (randint_spec (gen seed) 0 _ _ (n_samples * 2)
                (length (policy policy_ds)) Hlt) as (drawn & Hd & Hlen & Hall).
    exists drawn. split; [done|].
    assert (Hok : drawn_ok policy_ds n_samples drawn) by (split; [lia|done]).
    split; [done|]. split.
    { apply Forall_forall. intros x _.
      split; [apply np_sort_Sorted|apply np_sort_Permutation]. }
    rewrite (sample_dates_spec _ _ _ drawn Hd Hn).
    destruct (decide _) as [Hmore|Hless].
    + split; [done|]. rewrite length_take. lia.
    + split; [done|]. intros spd Hspd. unfold init_policy_dummies.
      rewrite Hspd. cbn [bind]. rewrite (sample_dates_spec _ _ _ drawn Hd Hn).
      by rewrite decide_False.
Qed.

(** Two samples of three policies: four vectors are drawn, all four are
    free of collinearity, the first two are kept. *)
Example sample_dates_example :
  drawn_dates (example_generator 0%Z) example_policies 2
  = inr [[20; 27; 34]; [21; 28; 35]; [22; 29; 36]; [23; 30; 37]]%Z
  /\ sample_dates (example_generator 0%Z) example_policies 2
     = inr [[20; 27; 34]; [21; 28; 35]]%Z.
Proof. split; vm_compute; reflexivity. Qed.

Lemma onset_dates_witness :
  (exists out,
     init_policy_dummies example_generator example_policies 2 (time_grid 50 2)
                         0%Z true = inr out
     /\ length (policy_timeseries out) = 2%nat)
  /\ exists drawn,
       drawn_dates (example_generator 0%Z) example_policies 2 = inr drawn
       /\ sample_dates (example_generator 0%Z) example_policies 2
          = inr (take 2 (collinearity_free (map np_sort drawn))).
Proof.
  split.
  - destruct (init_policy_dummies example_generator example_policies 2
                (time_grid 50 2) 0%Z true) as [e|out] eqn:E.
    + vm_compute in E. discriminate.
    + exists out. split; [done|].
      apply (proj1 onset_dates_are_sampled_sorted_and_filtered _ _ _ _ _ _ _ E).
  - destruct (proj2 onset_dates_are_sampled_sorted_and_filtered
                example_generator example_policies 2%nat (time_grid 50 2) 0%Z true
                ltac:(reflexivity) ltac:(lia))
      as (drawn & Hd & _ & _ & Hkeep).
    exists drawn. split; [done|].
    destruct (decide _) as [_|Hless]; [apply Hkeep|].
    exfalso. apply Hless.
    rewrite (proj1 sample_dates_example) in Hd. injection Hd as <-.
    vm_compute. lia.
Defined.

(** ** Rate/time conversion *)



















(** *** The round trip of a daily rate *)








Lemma filter_none {A} (P : A -> Prop) `{!forall x, Decision (P x)} (l : list A) :
  Forall (fun x => ~ P x) l -> filter P l = [].
Proof.
  induction 1 as [|x l Hx Hl IH]; [done|].
  rewrite filter_cons. by destruct (decide (P x)).
Qed.









Section Log1p.
Local Open Scope R_scope.



End Log1p.






(** * Stochastic parameters: warning and selectors *)









Lemma is_ok_returns {A} (m : result A) : is_ok m = true -> returns m.
Proof. destruct m; [discriminate|]. intros _. by eexists. Qed.






Lemma unknown_kind_raises noise estimates_ds no_policy_growth_rate
  policy_effect_timeseries t beta_noise_on beta_noise_sd kind
  gamma_noise_on gamma_noise_sd sigma_noise_on sigma_noise_sd :
  kind <> "SIR"%string -> kind <> "SEIR"%string ->
  get_stochastic_discrete_params noise estimates_ds no_policy_growth_rate
    policy_effect_timeseries t beta_noise_on beta_noise_sd kind
    gamma_noise_on gamma_noise_sd sigma_noise_on sigma_noise_sd
  = inl (ValueError kind).
Proof.
  intros H1 H2. unfold get_stochastic_discrete_params, stochastic_arrays, rate_funcs.
  rewrite !bool_decide_false by done. reflexivity.
Qed.

Lemma stoch_of_raise_inr noise param out det noise_on noise_sd e out' :
  stoch_of noise param out det noise_on noise_sd (raise e) = inr out' ->
  known_noise noise_on.
Proof.
  unfold stoch_of, known_noise. intros H.
  destruct (py_eq_str noise_on "normal"); [by left|].
  destruct (py_eq_str noise_on "exponential"); [by right; left|].
  destruct (truthy noise_on); [discriminate|]. by right; right.
Qed.

(** The beta and gamma blocks reject an unknown selector: whenever the
    arrays are returned, both selectors were known ones. *)
Lemma beta_gamma_selectors_known noise estimates_ds no_policy_growth_rate
  policy_effect_timeseries t beta_noise_on beta_noise_sd kind
  gamma_noise_on gamma_noise_sd sigma_noise_on sigma_noise_sd r :
  stochastic_arrays noise estimates_ds no_policy_growth_rate
    policy_effect_timeseries t beta_noise_on beta_noise_sd kind
    gamma_noise_on gamma_noise_sd sigma_noise_on sigma_noise_sd = inr r ->
  (kind = "SIR"%string \/ kind = "SEIR"%string)
  /\ known_noise beta_noise_on /\ known_noise gamma_noise_on.
Proof.
  unfold stochastic_arrays. intros H.
  apply bind_inr in H as ([beta_func lambda_func] & Hk & H).
  apply bind_inr in H as (tstep & _ & H).
  apply bind_inr in H as (out1 & _ & H).
  apply bind_inr in H as (l & _ & H).
  apply bind_inr in H as (g & _ & H).
  apply bind_inr in H as (s & _ & H).
  apply bind_inr in H as (bd & _ & H).
  apply bind_inr in H as (out2 & Hbeta & H).
  apply bind_inr in H as (gd & _ & H).
  apply bind_inr in H as (out3 & Hgamma & H).
  split; [|split].
  - unfold rate_funcs in Hk. repeat case_bool_decide; try discriminate; auto.
  - by eapply stoch_of_raise_inr.
  - by eapply stoch_of_raise_inr.
Qed.

(** C8 at the failing input.  The kind, the beta selector and the gamma
    selector are rejected with a [ValueError]; the unknown sigma selector
    ["foo"] is not: no sigma array is made, the later lookup of
    [out.sigma_stoch] fails with an [AttributeError], and when the
    incoming dataset already holds a [sigma_stoch] the call returns. *)
Theorem unknown_sigma_noise_is_not_rejected :
  example_call seir_estimates "SIS" noise_off noise_off noise_off
  = inl (ValueError "SIS")
  /\ example_call seir_estimates "SEIR" (PyStr "foo") noise_off noise_off
     = inl (ValueError "foo")
  /\ example_call seir_estimates "SEIR" noise_off (PyStr "foo") noise_off
     = inl (ValueError "foo")
  /\ example_call seir_estimates "SEIR" noise_off noise_off (PyStr "foo")
     = inl (AttributeError "sigma_stoch")
  /\ is_ok (example_call
              (set_item seir_estimates "sigma_stoch" (coord_da "sigma" (Fin (1 / 5))))
              "SEIR" noise_off noise_off (PyStr "foo")) = true.
Proof. repeat split; reflexivity. Qed.

(** * The regression end day *)

Lemma last_reg_day_formula d samp :
  last_reg_day d true samp
  = (Z.of_nat (last_pol d samp)
     + round_half_even
         (inject_Z (Z.of_nat (n_t d) - Z.of_nat (last_pol d samp) - 1)
          * daily_random_end d samp)
     + 1)%Z.
Proof.
  unfold last_reg_day.
  replace (Z.of_nat (n_t d) - Z.of_nat (last_pol d samp) - 1)%Z
    with (Z.of_nat (n_t d) - (Z.of_nat (last_pol d samp) + 1))%Z by lia.
  lia.
Qed.

(** Days after the sample's end day do not enter its fit. *)
Lemma days_after_last_reg_day_excluded d min_cases pop samp gx sx k :
  this_valid d min_cases pop true samp gx sx k = true ->
  (nth k (daily_t d) 0 <= inject_Z (last_reg_day d true samp))%Q.
Proof.
  unfold this_valid. intros H. apply andb_prop in H as [_ H].
  by apply Qle_bool_iff.
Qed.

(** With three step policies the day found is the onset of the last one. *)
Lemma last_pol_of_three_policies :
  last_pol three_policies 0 = 7%nat
  /\ last_policy_onset three_policies 0 = 7%nat
  /\ last_reg_day three_policies true 0 = 9%Z.
Proof. repeat split; vm_compute; reflexivity. Qed.

(** C4 at the failing input: two policies starting on days 2 and 5, ten
    days, a random-end fraction of 0.  The last policy starts on day 5, but
    the sum of two indicators never equals 3, so the day found is 0, the
    regression ends on day 1 (not on day 6), and days 2 to 6 are excluded
    from the fit. *)
Theorem last_pol_assumes_three_policies :
  last_policy_onset two_policies 0 = 5%nat
  /\ last_pol two_policies 0 = 0%nat
  /\ last_reg_day two_policies true 0 = 1%Z
  /\ forall min_cases pop gx sx k, (2 <= k <= 6)%nat ->
       this_valid two_policies min_cases pop true 0 gx sx k = false.
Proof.
  split; [by vm_compute|]. split; [by vm_compute|]. split; [by vm_compute|].
  intros min_cases pop gx sx k Hk. unfold this_valid.
  apply andb_false_intro2.
  assert (k = 2 \/ k = 3 \/ k = 4 \/ k = 5 \/ k = 6)%nat as Hcases by lia.
  destruct Hcases as [->|[->|[->|[->| ->]]]]; by vm_compute.
Qed.

(** * Which cells are fitted *)

Lemma foldM_invariant {A B} (P : A -> Prop) (f : A -> B -> result A) l :
  (forall a x a', P a -> f a x = inr a' -> P a') ->
  forall a r, P a -> foldM f a l = inr r -> P r.
Proof.
  intros Hf. induction l as [|x l IH]; intros a r Ha H; cbn in H.
  - by injection H as <-.
  - apply bind_inr in H as (a' & Hx & H). eauto.
Qed.

Section RegressionFacts.
Variable OLS : list xreal -> list (list xreal) -> result (list xreal).
Variable add_constant : list (list xreal) -> list (list xreal).
Variables (d : DailyDs) (reg_lag_days : list Z) (min_cases pop : xreal)
  (random_end : bool).

(** A cell that fails the test is skipped: nothing is written and nothing
    is raised. *)
Lemma regress_cell_skips cx gx sx st samp :
  no_pol_on_regday0 d min_cases pop samp gx sx = false ->
  regress_cell OLS add_constant d reg_lag_days min_cases pop random_end
    cx gx sx st samp = inr st.
Proof. unfold regress_cell. by intros ->. Qed.

(** A cell that passes it is handed to [OLS]. *)
Lemma regress_cell_fits cx gx sx st samp :
  no_pol_on_regday0 d min_cases pop samp gx sx = true ->
  regress_cell OLS add_constant d reg_lag_days min_cases pop random_end
    cx gx sx st samp
  = let valid_days :=
      filter (fun k => this_valid d min_cases pop random_end samp gx sx k = true)
             (days d) in
    let* params :=
      OLS (map (fun k => daily_logdiff d cx k samp gx sx) valid_days)
          (add_constant (map (RHS_row d reg_lag_days samp) valid_days)) in
    ret (with_fit st (gx, sx, samp, cx) params).
Proof. unfold regress_cell. by intros ->. Qed.

Lemma regress_cell_keeps_invariant cx gx sx st samp st' :
  unfitted_missing d reg_lag_days min_cases pop st ->
  regress_cell OLS add_constant d reg_lag_days min_cases pop random_end
    cx gx sx st samp = inr st' ->
  unfitted_missing d reg_lag_days min_cases pop st'.
Proof.
  intros [Hmiss Hfit] H.
  destruct (no_pol_on_regday0 d min_cases pop samp gx sx) eqn:Hno.
  - rewrite (regress_cell_fits _ _ _ _ _ Hno) in H. cbn zeta in H.
    apply bind_inr in H as (params & _ & H). injection H as <-. split.
    + intros c Hc. cbn in Hc |- *. apply not_elem_of_app in Hc as [Hc Hne].
      rewrite decide_False; [by apply Hmiss|].
      intros ->. apply Hne. left.
    + intros gx' sx' samp' cx' Hc. cbn in Hc.
      apply elem_of_app in Hc as [Hc|Hc]; [by eapply Hfit|].
      apply list_elem_of_singleton in Hc. by injection Hc as -> -> -> _.
  - rewrite (regress_cell_skips _ _ _ _ _ Hno) in H. injection H as <-. by split.
Qed.

(** When the loops finish, the cells without a fit are still all NaN, and
    every fit was allowed by the test. *)
Lemma regress_all_unfitted_missing st :
  regress_all OLS add_constant d reg_lag_days min_cases pop random_end = inr st ->
  unfitted_missing d reg_lag_days min_cases pop st.
Proof.
  unfold regress_all. intros H.
  destruct (decide (length (daily_policy d) = 0%nat)); [discriminate|].
  destruct (decide (n_t d = 0%nat)); [discriminate|].
  revert H. apply foldM_invariant; [|split; [done|intros ???? Hc; by apply elem_of_nil in Hc]].
  intros st1 cx st1' H1. apply foldM_invariant; [|done].
  intros st2 gx st2' H2. apply foldM_invariant; [|done].
  intros st3 sx st3' H3. apply foldM_invariant; [|done].
  intros st4 samp st4' H4. by apply regress_cell_keeps_invariant.
Qed.


Lemma existsb_all_false (l : list bool) :
  Forall (fun b => b = false) l -> existsb (fun b : bool => b) l = false.
Proof. induction 1 as [|b l -> _ IH]; [done|]. by cbn. Qed.

Lemma argmax_bool_none (l : list bool) :
  Forall (fun b => b = false) l -> argmax_bool l = 0%nat.
Proof.
  induction 1 as [|b l -> Hl IH]; [done|]. cbn.
  by rewrite existsb_all_false.
Qed.

(** When the threshold is met on no day but some policy starts after day
    0, the cell passes the test, and [OLS] is called on zero observations. *)
Lemma threshold_never_met_still_fits cx gx sx st samp :
  (forall k, valid_reg d min_cases pop k samp gx sx = false) ->
  (0 < argmax_bool (map (any_policy_on d samp) (days d)))%nat ->
  no_pol_on_regday0 d min_cases pop samp gx sx = true
  /\ regress_cell OLS add_constant d reg_lag_days min_cases pop random_end
       cx gx sx st samp
     = let* params := OLS [] (add_constant []) in
       ret (with_fit st (gx, sx, samp, cx) params).
Proof.
  intros Hnever Hpol.
  assert (no_pol_on_regday0 d min_cases pop samp gx sx = true) as Hno.
  { unfold no_pol_on_regday0. apply bool_decide_eq_true.
    rewrite argmax_bool_none; [done|].
    apply Forall_forall. intros b Hb. apply list_elem_of_fmap in Hb as (k & -> & _).
    apply Hnever. }
  split; [done|]. rewrite (regress_cell_fits _ _ _ _ _ Hno). cbn zeta.
  assert (forall l, filter (fun k => this_valid d min_cases pop random_end samp gx sx k = true)
                      l = []) as ->; [|done].
  intros l. induction l as [|k l IH]; [done|].
  rewrite filter_cons_False; [exact IH|].
  unfold this_valid. rewrite Hnever. cbn. discriminate.
Qed.

End RegressionFacts.

(** C9 at the failing input: three policies starting on days 2, 5 and 7,
    [min_cases = 2 * pop] so that no day meets the threshold.  There is no
    first day on which the threshold is met, yet the cell passes the test
    (the [argmax] of an all-false mask is 0, and 2 > 0) and a fit is
    attempted, on zero observations. *)
Theorem fit_attempted_when_threshold_never_met
  (OLS : list xreal -> list (list xreal) -> result (list xreal))
  (add_constant : list (list xreal) -> list (list xreal))
  (reg_lag_days : list Z) (random_end : bool) (st : RegState) (cx : nat) :
  (forall k, valid_reg three_policies (Fin 2) (Fin 1) k 0 0 0 = false)
  /\ first_true (map (fun k => valid_reg three_policies (Fin 2) (Fin 1) k 0 0 0)
                     (days three_policies)) = None
  /\ first_true (map (any_policy_on three_policies 0) (days three_policies))
     = Some 2%nat
  /\ no_pol_on_regday0 three_policies (Fin 2) (Fin 1) 0 0 0 = true
  /\ regress_cell OLS add_constant three_policies reg_lag_days (Fin 2) (Fin 1)
       random_end cx 0 0 st 0
     = let* params := OLS [] (add_constant []) in
       ret (with_fit st (0, 0, 0, cx)%nat params).
Proof.
  assert (forall k, valid_reg three_policies (Fin 2) (Fin 1) k 0 0 0 = false) as Hnever.
  { intros k. unfold valid_reg. cbn. rewrite Reqb_false by lra. cbn.
    apply Rleb_false. lra. }
  split; [done|]. split.
  { induction (days three_policies) as [|k l IH]; [done|].
    cbn [map first_true]. by rewrite Hnever, IH. }
  split; [by vm_compute|].
  apply threshold_never_met_still_fits; [done|]. vm_compute. lia.
Qed.

(** * The setup for [kind = "SIR"] *)



(** * Trajectories of the simulators *)

Lemma run_SIR_inr I0 R0 ds out :
  run_SIR I0 R0 ds = inr out ->
  exists b g,
    variables ds !! "beta_stoch"%string = Some b
    /\ variables ds !! "gamma_stoch"%string = Some g
    /\ "t"%string ∈ dims b /\ t ds ≠ []
    /\ let st := SIR_loop (rows_of b) (rows_of g) (length (t ds)) (SIR_init I0 R0) in
       out = set_item (set_item (set_item ds "S" (of_rows (new_dims_of b) (sir_S st)))
                                "I" (of_rows (new_dims_of b) (sir_I st)))
                      "R" (of_rows (new_dims_of b) (sir_R st)).
Proof.
  intros Hrun. unfold run_SIR, beta_rows, rate_rows, get_attr in Hrun.
  destruct (variables ds !! "beta_stoch"%string) as [b|] eqn:Eb;
    cbn in Hrun; [|discriminate].
  case_bool_decide; cbn in Hrun; [|discriminate].
  destruct (variables ds !! "gamma_stoch"%string) as [g|] eqn:Eg;
    cbn in Hrun; [|discriminate].
  destruct (forallb _ _); cbn in Hrun; [|discriminate].
  destruct (decide (length (t ds) = 0)%nat) as [|Hn]; [discriminate|].
  injection Hrun as <-. exists b, g. repeat split; try done.
  intros E. by rewrite E in Hn.
Qed.

Lemma run_SEIR_inr E0 I0 R0 ds out :
  run_SEIR E0 I0 R0 ds = inr out ->
  exists b g sg,
    variables ds !! "beta_stoch"%string = Some b
    /\ variables ds !! "gamma_stoch"%string = Some g
    /\ variables ds !! "sigma_stoch"%string = Some sg
    /\ "t"%string ∈ dims b /\ t ds ≠ []
    /\ let st := SEIR_loop (rows_of b) (rows_of g) (rows_of sg) (length (t ds))
                   (SEIR_init E0 I0 R0) in
       out = set_item (set_item (set_item (set_item ds
                 "S" (of_rows (new_dims_of b) (seir_S st)))
                 "E" (of_rows (new_dims_of b) (seir_E st)))
                 "I" (of_rows (new_dims_of b) (seir_I st)))
                 "R" (of_rows (new_dims_of b) (seir_R st)).
Proof.
  intros Hrun. unfold run_SEIR, beta_rows, rate_rows, get_attr in Hrun.
  destruct (variables ds !! "beta_stoch"%string) as [b|] eqn:Eb;
    cbn in Hrun; [|discriminate].
  case_bool_decide; cbn in Hrun; [|discriminate].
  destruct (variables ds !! "gamma_stoch"%string) as [g|] eqn:Eg;
    cbn in Hrun; [|discriminate].
  destruct (forallb _ (dims g)); cbn in Hrun; [|discriminate].
  destruct (variables ds !! "sigma_stoch"%string) as [sg|] eqn:Es;
    cbn in Hrun; [|discriminate].
  destruct (forallb _ (dims sg)); cbn in Hrun; [|discriminate].
  destruct (decide (length (t ds) = 0)%nat) as [|Hn]; [discriminate|].
  injection Hrun as <-. exists b, g, sg. repeat split; try done.
  intros E. by rewrite E in Hn.
Qed.

Section SIR_trajectory.
Variables (beta gamma : ndarray) (n : nat).
Variable Q : nat -> index -> xreal -> xreal -> xreal -> Prop.

(** [Q] passes from one row to the next through the update of the loop
    body. *)
Hypothesis Q_step : forall k ix s i r, (S k < n)%nat -> Q k ix s i r ->
  let s' := (s - beta k ix * s * i)%A in
  let i' := (i * xexp (beta k ix * s - gamma k ix))%A in
  Q (S k) ix s' i' (of_Z 1 - s' - i')%A.

Lemma SIR_step_rows k st :
  (S k < n)%nat -> SIR_rows Q k st -> SIR_rows Q (S k) (SIR_step beta gamma st (S k)).
Proof.
  intros Hk Hst j ix Hj. destruct st as [S_ I_ R_]. cbn.
  replace (k - 0)%nat with k by lia.
  destruct (decide (j = S k)) as [->|Hne].
  - rewrite !set_row_eq. apply (Q_step k ix _ _ _ Hk (Hst k ix (le_n _))).
  - rewrite !set_row_ne by done. apply (Hst j ix). lia.
Qed.

Lemma SIR_loop_rows m st :
  (m < n)%nat -> SIR_rows Q 0 st ->
  SIR_rows Q m (foldl (SIR_step beta gamma) st (seq 1 m)).
Proof.
  induction m as [|m IH]; intros Hm H0; [done|].
  rewrite seq_S, foldl_app. cbn. apply SIR_step_rows; [lia|]. apply IH; [lia|done].
Qed.

Lemma SIR_init_rows I0 R0 :
  (forall ix, Q 0 ix (of_Z 1 - I0 - R0)%A I0 R0) -> SIR_rows Q 0 (SIR_init I0 R0).
Proof.
  intros H j ix Hj. assert (j = 0)%nat as -> by lia. cbn. rewrite !set_row_eq. apply H.
Qed.

End SIR_trajectory.

Section SEIR_trajectory.
Variables (beta gamma sigma : ndarray) (n : nat).
Variable Q : nat -> index -> xreal -> xreal -> xreal -> xreal -> Prop.

Hypothesis Q_step : forall k ix s e i r, (S k < n)%nat -> Q k ix s e i r ->
  let new_exposed := (beta k ix * s * i)%A in
  let new_infected := (sigma k ix * e)%A in
  let new_removed := (gamma k ix * i)%A in
  let s' := (s - new_exposed)%A in
  let e' := (e + new_exposed - new_infected)%A in
  let i' := (i + new_infected - new_removed)%A in
  Q (S k) ix s' e' i' (of_Z 1 - s' - e' - i')%A.




End SEIR_trajectory.

(** What [run_SIR] returns, row by row: any property of the rows that the
    initial conditions have and the update keeps. *)
Lemma run_SIR_rows (Q : nat -> index -> xreal -> xreal -> xreal -> Prop) I0 R0 ds out b g :
  run_SIR I0 R0 ds = inr out ->
  variables ds !! "beta_stoch"%string = Some b ->
  variables ds !! "gamma_stoch"%string = Some g ->
  (forall ix, Q 0%nat ix (of_Z 1 - I0 - R0)%A I0 R0) ->
  (forall k ix s i r, (S k < length (t ds))%nat -> Q k ix s i r ->
     let s' := (s - rows_of b k ix * s * i)%A in
     let i' := (i * xexp (rows_of b k ix * s - rows_of g k ix))%A in
     Q (S k) ix s' i' (of_Z 1 - s' - i')%A) ->
  forall ix, on_t ds ix ->
  exists s i r,
    value_of out "S" ix = Some s /\ value_of out "I" ix = Some i
    /\ value_of out "R" ix = Some r /\ Q (ix "t"%string) ix s i r.
Proof.
  intros Hrun Eb Eg H0 Hstep ix Hix.
  destruct (run_SIR_inr _ _ _ _ Hrun) as (b' & g' & Eb' & Eg' & _ & _ & ->).
  rewrite Eb in Eb'. injection Eb' as <-. rewrite Eg in Eg'. injection Eg' as <-.
  pose proof (SIR_loop_rows (rows_of b) (rows_of g) (length (t ds)) Q Hstep
                (length (t ds) - 1) (SIR_init I0 R0) ltac:(unfold on_t in Hix; lia)
                (SIR_init_rows Q I0 R0 H0)) as Hok.
  specialize (Hok (ix "t"%string) ix ltac:(unfold on_t in Hix; lia)).
  eexists _, _, _. unfold value_of, set_item. cbn. simplify_map_eq. cbn.
  repeat split. exact Hok.
Qed.










(** X4.  A NaN transmission rate poisons the rest of an SIR run: when
    [beta_stoch] is NaN at step [k], the fractions S, I and R are NaN at
    every later step of the same cell, whatever the other rates are. *)
Theorem run_SIR_NaN_rate_poisons_later_steps I0 R0 ds out b k ix :
  run_SIR I0 R0 ds = inr out ->
  variables ds !! "beta_stoch"%string = Some b ->
  values b (at_dim ix "t" k) = NaN ->
  (k < ix "t"%string)%nat -> on_t ds ix ->
  value_of out "S" ix = Some NaN
  /\ value_of out "I" ix = Some NaN
  /\ value_of out "R" ix = Some NaN.
Proof.
  intros Hrun Eb Hnan Hk Hix.
  destruct (run_SIR_inr _ _ _ _ Hrun) as (b' & g & Eb' & Eg & _ & _ & _).
  rewrite Eb in Eb'. injection Eb' as <-.
  destruct (run_SIR_rows
              (fun j ix' s i r => rows_of b k ix' = NaN -> (k < j)%nat ->
                                  s = NaN /\ i = NaN /\ r = NaN)
              _ _ _ _ b g Hrun Eb Eg) with (ix := ix)
    as (s & i & r & HS & HI & HR & HQ); try done.
  - intros ? _ ?. lia.
  - intros j ix' s i r Hj HQ. cbv beta zeta. intros Hb Hkj.
    destruct (decide (k = j)) as [->|Hne].
    + rewrite Hb. destruct s, i; cbn; done.
    + destruct (HQ Hb ltac:(lia)) as (-> & -> & _). cbn. done.
  - destruct (HQ Hnan Hk) as (-> & -> & ->). done.
Qed.

Lemma run_SIR_NaN_rate_witness :
  exists out,
    run_SIR (Fin (1 / 100)) (Fin 0) example_rates_NaN = inr out
    /\ value_of out "S" (fun _ => 2%nat) = Some NaN
    /\ value_of out "I" (fun _ => 2%nat) = Some NaN
    /\ value_of out "R" (fun _ => 2%nat) = Some NaN.
Proof.
  eexists. split; [reflexivity|].
  apply (run_SIR_NaN_rate_poisons_later_steps _ _ example_rates_NaN _
           {| dims := ["t"%string]; values := fun _ => NaN |} 0 (fun _ => 2%nat)
           eq_refl eq_refl eq_refl); [cbn; lia|unfold on_t; cbn; lia].
Defined.

(** X5.  The simulators only add the state arrays: the time axis, the
    sizes, the coordinates and every variable other than S, (E,) I and R
    are returned as they came in, and the new arrays have the time axis
    first, followed by the other axes of [beta_stoch]. *)
Theorem simulators_only_add_the_states :
  (forall I0 R0 ds out,
     run_SIR I0 R0 ds = inr out ->
     t out = t ds /\ sizes out = sizes ds /\ coords out = coords ds
     /\ (forall name, name ∉ ["S"; "I"; "R"]%string ->
           variables out !! name = variables ds !! name)
     /\ forall name, name ∈ ["S"; "I"; "R"]%string ->
          exists v b, variables out !! name = Some v
                      /\ variables ds !! "beta_stoch"%string = Some b
                      /\ dims v = "t"%string :: filter (fun d => d ≠ "t"%string) (dims b))
  /\
  (forall E0 I0 R0 ds out,
     run_SEIR E0 I0 R0 ds = inr out ->
     t out = t ds /\ sizes out = sizes ds /\ coords out = coords ds
     /\ (forall name, name ∉ ["S"; "E"; "I"; "R"]%string ->
           variables out !! name = variables ds !! name)
     /\ forall name, name ∈ ["S"; "E"; "I"; "R"]%string ->
          exists v b, variables out !! name = Some v
                      /\ variables ds !! "beta_stoch"%string = Some b
                      /\ dims v = "t"%string :: filter (fun d => d ≠ "t"%string) (dims b)).
Proof.
  split.
  - intros I0 R0 ds out Hrun.
    destruct (run_SIR_inr _ _ _ _ Hrun) as (b & g & Eb & Eg & _ & _ & ->).
    cbn. repeat split.
    + intros name Hn. rewrite !lookup_insert_ne; [done|..];
        intros <-; apply Hn; set_solver.
    + intros name Hn. repeat (apply elem_of_cons in Hn as [->|Hn]);
        [..|by apply elem_of_nil in Hn]; eexists _, b; simplify_map_eq; done.
  - intros E0 I0 R0 ds out Hrun.
    destruct (run_SEIR_inr _ _ _ _ _ Hrun) as (b & g & sg & Eb & Eg & Es & _ & _ & ->).
    cbn. repeat split.
    + intros name Hn. rewrite !lookup_insert_ne; [done|..];
        intros <-; apply Hn; set_solver.
    + intros name Hn. repeat (apply elem_of_cons in Hn as [->|Hn]);
        [..|by apply elem_of_nil in Hn]; eexists _, b; simplify_map_eq; done.
Qed.

Lemma simulators_only_add_the_states_witness :
  (exists out,
     run_SIR (Fin (1 / 100)) (Fin 0) example_rates = inr out
     /\ t out = t example_rates
     /\ variables out !! "beta_stoch"%string
        = variables example_rates !! "beta_stoch"%string)
  /\ (exists out,
        run_SEIR (Fin (1 / 100)) (Fin (1 / 100)) (Fin 0) example_rates = inr out
        /\ t out = t example_rates
        /\ variables out !! "beta_stoch"%string
           = variables example_rates !! "beta_stoch"%string).
Proof.
  split; (eexists; split; [reflexivity|]).
  - destruct (proj1 simulators_only_add_the_states (Fin (1 / 100)) (Fin 0)
                example_rates _ eq_refl) as (Ht & _ & _ & Hv & _).
    split; [exact Ht|]. apply Hv. intros H.
    repeat (apply elem_of_cons in H as [H|H]; [discriminate|]).
    by apply elem_of_nil in H.
  - destruct (proj2 simulators_only_add_the_states (Fin (1 / 100)) (Fin (1 / 100))
                (Fin 0) example_rates _ eq_refl) as (Ht & _ & _ & Hv & _).
    split; [exact Ht|]. apply Hv. intros H.
    repeat (apply elem_of_cons in H as [H|H]; [discriminate|]).
    by apply elem_of_nil in H.
Defined.

(** X6.  The simulators read their rates as attributes of the dataset: a
    run without [beta_stoch] or [gamma_stoch] raises [AttributeError], an
    SEIR run on a dataset that has only the SIR rates raises
    [AttributeError] for [sigma_stoch], and a dataset with an empty time
    axis raises [IndexError] when the initial conditions are written. *)
Theorem simulators_need_their_rates E0 I0 R0 ds :
  (variables ds !! "beta_stoch"%string = None ->
   run_SIR I0 R0 ds = inl (AttributeError "beta_stoch")
   /\ run_SEIR E0 I0 R0 ds = inl (AttributeError "beta_stoch"))
  /\ (forall b, variables ds !! "beta_stoch"%string = Some b ->
        "t"%string ∈ dims b ->
        variables ds !! "gamma_stoch"%string = None ->
        run_SIR I0 R0 ds = inl (AttributeError "gamma_stoch")
        /\ run_SEIR E0 I0 R0 ds = inl (AttributeError "gamma_stoch"))
  /\ (forall b g, variables ds !! "beta_stoch"%string = Some b ->
        "t"%string ∈ dims b ->
        variables ds !! "gamma_stoch"%string = Some g ->
        Forall (fun d => d ∈ dims b) (dims g) ->
        (variables ds !! "sigma_stoch"%string = None ->
         run_SEIR E0 I0 R0 ds = inl (AttributeError "sigma_stoch"))
        /\ (t ds = [] -> run_SIR I0 R0 ds = inl IndexError)).
Proof.
  unfold run_SIR, run_SEIR, beta_rows, rate_rows, get_attr.
  split; [|split].
  - intros ->. done.
  - intros b -> Ht ->. cbn. rewrite bool_decide_true by done. done.
  - intros b g -> Ht -> Hsub. cbn. rewrite bool_decide_true by done. cbn.
    rewrite (forallb_dims_subset b g Hsub). cbn. split.
    + intros ->. done.
    + intros ->. done.
Qed.

Lemma simulators_need_their_rates_witness :
  run_SIR (Fin 0) (Fin 0) (with_variables example_rates ∅)
  = inl (AttributeError "beta_stoch")
  /\ run_SIR (Fin 0) (Fin 0)
       (with_variables example_rates
          {["beta_stoch"%string := const_da ["t"%string] (3 / 10)]})
     = inl (AttributeError "gamma_stoch")
  /\ run_SEIR (Fin 0) (Fin 0) (Fin 0)
       (with_variables example_rates
          (<["beta_stoch"%string := const_da ["t"%string] (3 / 10)]>
             {["gamma_stoch"%string := const_da ["t"%string] (1 / 10)]}))
     = inl (AttributeError "sigma_stoch").
Proof.
  split; [|split].
  - apply (proj1 (simulators_need_their_rates (Fin 0) (Fin 0) (Fin 0)
                    (with_variables example_rates ∅))). reflexivity.
  - apply (proj1 (proj2 (simulators_need_their_rates (Fin 0) (Fin 0) (Fin 0) _))
             (const_da ["t"%string] (3 / 10))); [reflexivity|set_solver|reflexivity].
  - apply (proj2 (proj2 (simulators_need_their_rates (Fin 0) (Fin 0) (Fin 0) _))
             (const_da ["t"%string] (3 / 10)) (const_da ["t"%string] (1 / 10)));
      [reflexivity|set_solver|reflexivity| |reflexivity].
    apply Forall_forall. intros d. cbn. done.
Defined.

(** * The growth of the infected fraction *)


Section Growth.
Local Open Scope R_scope.
Variables (b g : nat -> R) (I0 R0 : R).
Hypothesis I0_pos : 0 < I0.




End Growth.







(** * The SEIR fractions stay fractions *)

Section UnitInterval.
Local Open Scope R_scope.


End UnitInterval.




(** * The policy dummies *)

Lemma step_dummy_replicate n spd date :
  let p := Z.to_nat (date * spd) in
  step_dummy n spd date = replicate (p `min` n) 0%Q ++ replicate (n - p) 1%Q.
Proof.
  cbn zeta. unfold step_dummy. induction n as [|n IH]; [by rewrite Nat.min_0_r|].
  rewrite seq_S, map_app, IH. cbn [map].
  destruct (Z.leb_spec (date * spd) (Z.of_nat (0 + n))) as [Hle|Hgt].
  - replace (Z.to_nat (date * spd) `min` S n)%nat with (Z.to_nat (date * spd) `min` n)%nat by lia.
    replace (S n - Z.to_nat (date * spd))%nat with (S (n - Z.to_nat (date * spd))) by lia.
    rewrite replicate_S_end. by rewrite app_assoc.
  - replace (Z.to_nat (date * spd) `min` S n)%nat with (S n) by lia.
    replace (Z.to_nat (date * spd) `min` n)%nat with n by lia.
    replace (n - Z.to_nat (date * spd))%nat with 0%nat by lia.
    replace (S n - Z.to_nat (date * spd))%nat with 0%nat by lia.
    cbn [replicate]. rewrite !app_nil_r. by rewrite replicate_cons_app.
Qed.

Lemma argmax_from_no_better best besti i l :
  Forall (fun x => (x <= best)%Q) l -> argmax_from best besti i l = besti.
Proof.
  revert i. induction l as [|x l IH]; intros i Hl; [done|].
  apply Forall_cons in Hl as [Hx Hl]. cbn.
  destruct (Qlt_le_dec best x) as [Hlt|_]; [|by apply IH].
  exfalso. apply (Qlt_not_le _ _ Hlt Hx).
Qed.

Lemma argmax_from_zeros besti i a l :
  argmax_from 0 besti i (replicate a 0%Q ++ l) = argmax_from 0 besti (a + i) l.
Proof.
  revert i. induction a as [|a IH]; intros i; [done|]. cbn.
  destruct (Qlt_le_dec 0 0) as [H|_]; [by apply Qlt_irrefl in H|].
  rewrite IH. f_equal. lia.
Qed.

Lemma Forall_replicate_le (b : nat) : Forall (fun x => (x <= 1)%Q) (replicate b 1%Q).
Proof. apply Forall_replicate. apply Qle_refl. Qed.

(** [argmax] of a step from 0 to 1: the first 1, or 0 when there is none. *)
Lemma argmax_step a b :
  argmax (replicate a 0%Q ++ replicate b 1%Q) = if decide (b = 0)%nat then 0%nat else a.
Proof.
  destruct b as [|b]; cbn [replicate].
  - rewrite app_nil_r, decide_True by done. destruct a as [|a]; [done|]. cbn.
    apply argmax_from_no_better, Forall_replicate. apply Qle_refl.
  - rewrite decide_False by done. destruct a as [|a]; cbn.
    + apply argmax_from_no_better, Forall_replicate_le.
    + rewrite argmax_from_zeros. cbn.
      destruct (Qlt_le_dec 0 1) as [_|H]; [|by apply Qle_not_lt in H].
      rewrite argmax_from_no_better by apply Forall_replicate_le. lia.
Qed.

(** The ramp fits: zeros up to the onset, the ramp, ones afterwards. *)
Lemma lagged_dummy_fits n spd l date :
  let p := Z.to_nat (date * spd) in
  (p + length l <= n)%nat ->
  lagged_dummy n spd l date
  = inr (replicate p 0%Q ++ l ++ replicate (n - p - length l) 1%Q).
Proof.
  cbn zeta. intros Hfit. unfold lagged_dummy. rewrite step_dummy_replicate.
  set (p := Z.to_nat (date * spd)) in *.
  replace (p `min` n)%nat with p by lia. rewrite argmax_step.
  unfold assign_slice. rewrite length_app, !length_replicate.
  destruct (decide (n - p = 0)%nat) as [Hz|Hnz].
  - assert (length l = 0)%nat as Hl by lia.
    destruct l; [|done]. cbn [length].
    rewrite decide_True by lia. cbn.
    replace (n - p - 0)%nat with 0%nat by lia.
    rewrite Hz. cbn. by rewrite !app_nil_r.
  - rewrite decide_True by lia. f_equal.
    replace (p `min` (p + (n - p)))%nat with p by lia.
    replace ((p + length l) `min` (p + (n - p)))%nat with (p + length l)%nat by lia.
    rewrite take_app_length' by (by rewrite length_replicate).
    rewrite drop_app_ge by (rewrite length_replicate; lia).
    rewrite length_replicate, drop_replicate. do 3 f_equal. lia.
Qed.

(** The ramp runs over the end of the time axis: numpy refuses the
    assignment. *)
Lemma lagged_dummy_overruns n spd l date :
  let p := Z.to_nat (date * spd) in
  (p < n)%nat -> (n < p + length l)%nat ->
  lagged_dummy n spd l date = inl (ValueError "could not broadcast input array").
Proof.
  cbn zeta. intros Hp Hover. unfold lagged_dummy. rewrite step_dummy_replicate.
  set (p := Z.to_nat (date * spd)) in *.
  replace (p `min` n)%nat with p by lia. rewrite argmax_step.
  rewrite decide_False by lia.
  unfold assign_slice. rewrite length_app, !length_replicate.
  rewrite decide_False by lia.
  destruct l as [|x [|y l]]; cbn in Hover |- *; [lia|lia|done].
Qed.

(** The onset lies at or after the end of the time axis: the step is 0
    throughout, its [argmax] is 0, and the ramp is written from step 0. *)
Lemma lagged_dummy_late_onset n spd l date :
  (n <= Z.to_nat (date * spd))%nat -> (length l <= n)%nat ->
  lagged_dummy n spd l date = inr (l ++ replicate (n - length l) 0%Q).
Proof.
  intros Hp Hl. unfold lagged_dummy. rewrite step_dummy_replicate.
  set (p := Z.to_nat (date * spd)) in *.
  replace (p `min` n)%nat with n by lia. replace (n - p)%nat with 0%nat by lia.
  rewrite argmax_step, decide_True by done. cbn [replicate]. rewrite app_nil_r.
  unfold assign_slice. rewrite length_replicate.
  rewrite decide_True by lia. f_equal. cbn.
  replace (length l `min` n)%nat with (length l) by lia.
  by rewrite drop_replicate.
Qed.

Lemma mapM_lookup {A B} (f : A -> result B) l ys i x :
  mapM f l = inr ys -> l !! i = Some x ->
  exists y, ys !! i = Some y /\ f x = inr y.
Proof.
  revert ys i. induction l as [|a l IH]; intros ys i H Hi; [done|]. cbn in H.
  apply bind_inr in H as (y & Hy & H). apply bind_inr in H as (ys' & Hys & H).
  injection H as <-. destruct i as [|i]; cbn in Hi |- *.
  - injection Hi as ->. eauto.
  - eauto.
Qed.

Lemma lookup_flat_map_replicate {A} (m : nat) (l : list A) (j : nat) :
  (0 < m)%nat ->
  flat_map (fun x => replicate m x) l !! j = l !! (j / m)%nat.
Proof.
  intros Hm. revert j. induction l as [|x l IH]; intros j; [done|]. cbn [flat_map].
  destruct (decide (j < m)%nat) as [Hlt|Hge].
  - rewrite lookup_app_l by (by rewrite length_replicate).
    rewrite Nat.div_small by done. cbn. by apply lookup_replicate_2.
  - rewrite lookup_app_r by (rewrite length_replicate; lia).
    rewrite length_replicate, IH.
    replace j with ((j - m) + 1 * m)%nat at 2 by lia.
    rewrite Nat.div_add by lia. by rewrite Nat.add_1_r.
Qed.

Lemma length_lag_steps spd this_lag :
  length (lag_steps spd this_lag) = (length this_lag * Z.to_nat spd)%nat.
Proof.
  unfold lag_steps. induction this_lag as [|x l IH]; [done|].
  cbn. rewrite length_app, length_replicate, IH. lia.
Qed.

Lemma swapaxes_lookup n rows k p r :
  (k < n)%nat -> rows !! p = Some r ->
  exists row, swapaxes n rows !! k = Some row /\ row !! p = Some (nth k r 0%Q).
Proof.
  intros Hk Hp. unfold swapaxes. eexists. split.
  - rewrite list_lookup_fmap, lookup_seq_lt by done. reflexivity.
  - rewrite list_lookup_fmap, Hp. reflexivity.
Qed.

(** The entries of a dummy whose ramp fits. *)
Lemma nth_zero_ramp_one spd this_lag date n k :
  (0 < spd)%Z -> (0 <= date)%Z -> (k < n)%nat ->
  (Z.to_nat (date * spd) + length (lag_steps spd this_lag) <= n)%nat ->
  nth k (replicate (Z.to_nat (date * spd)) 0%Q ++ lag_steps spd this_lag
         ++ replicate (n - Z.to_nat (date * spd) - length (lag_steps spd this_lag)) 1%Q)
      0%Q
  = dummy_value spd this_lag date k.
Proof.
  intros Hspd Hdate Hk Hfit. unfold dummy_value.
  set (p := Z.to_nat (date * spd)) in *.
  assert (Z.of_nat p = date * spd)%Z as Hp by (unfold p; nia).
  destruct (Z.ltb_spec (Z.of_nat k) (date * spd)) as [Hlt|Hge].
  - rewrite app_nth1 by (rewrite length_replicate; lia).
    rewrite nth_lookup, lookup_replicate_2 by lia. done.
  - rewrite app_nth2 by (rewrite length_replicate; lia). rewrite length_replicate.
    assert (Z.to_nat ((Z.of_nat k - date * spd) / spd)
            = ((k - p) / Z.to_nat spd)%nat) as ->.
    { replace (Z.of_nat k - date * spd)%Z with (Z.of_nat (k - p)) by lia.
      rewrite <- (Z2Nat.id spd) at 1 by lia.
      rewrite <- Nat2Z.inj_div. by rewrite Nat2Z.id. }
    rewrite <- (lookup_flat_map_replicate (Z.to_nat spd)) by lia.
    fold (lag_steps spd this_lag). rewrite nth_lookup.
    destruct (decide (k - p < length (lag_steps spd this_lag))%nat) as [Hin|Hout].
    + rewrite lookup_app_l by done.
      destruct (lookup_lt_is_Some_2 _ _ Hin) as [x ->]. done.
    + rewrite lookup_app_r by lia.
      rewrite (lookup_ge_None_2 (lag_steps spd this_lag)) by lia.
      rewrite lookup_replicate_2 by lia. done.
Qed.

(** The sampled onset days lie in the interval. *)
Lemma sample_dates_range raw policy_ds n_samples dates sd date :
  sample_dates raw policy_ds n_samples = inr dates ->
  sd ∈ dates -> date ∈ sd ->
  (interval_start policy_ds <= date < interval_end policy_ds)%Z.
Proof.
  intros H Hsd Hdate.
  apply sample_dates_inr in H as (drawn & Hd & _ & ->).
  apply drawn_dates_inr in Hd as [_ [_ Hall]].
  apply elem_of_take in Hsd as (i & Hsd & _). apply list_elem_of_lookup_2 in Hsd.
  unfold collinearity_free in Hsd. apply list_elem_of_filter in Hsd as [_ Hsd].
  apply list_elem_of_fmap in Hsd as (x & -> & Hx).
  rewrite Forall_forall in Hall. destruct (Hall x Hx) as [_ Hrange].
  rewrite Forall_forall in Hrange. apply Hrange.
  by rewrite <- (np_sort_Permutation x).
Qed.

(** X10.  Whenever [init_policy_dummies] returns for onsets that lie on the
    time axis, every ramp fits the time axis, and the dummy of policy [p]
    in sample [s] is 0 before the sampled onset day, takes the policy's lag
    value of each day since the onset while the ramp lasts, and is 1 from
    then on. *)
Theorem policy_dummies_are_zero_ramp_one gen policy_ds n_samples t seed random_end
  out steps_per_day :
  init_policy_dummies gen policy_ds n_samples t seed random_end = inr out ->
  steps_per_day_of t = inr steps_per_day ->
  (0 < steps_per_day)%Z -> (0 <= interval_start policy_ds)%Z ->
  ((interval_end policy_ds - 1) * steps_per_day < Z.of_nat (length t))%Z ->
  exists dates,
    sample_dates (gen seed) policy_ds n_samples = inr dates
    /\ forall s sd p date this_lag,
         dates !! s = Some sd -> sd !! p = Some date ->
         lag policy_ds !! p = Some this_lag ->
         (date * steps_per_day + steps_per_day * Z.of_nat (length this_lag)
          <= Z.of_nat (length t))%Z
         /\ exists ts,
              policy_timeseries out !! s = Some ts
              /\ forall k, (k < length t)%nat ->
                   exists row, ts !! k = Some row
                     /\ row !! p = Some (dummy_value steps_per_day this_lag date k).
Proof.
  intros H Hspd Hpos Hstart Hend. unfold init_policy_dummies in H.
  rewrite Hspd in H. cbn [bind] in H.
  apply bind_inr in H as (dates & Hdates & H).
  apply bind_inr in H as (rows & Hrows & H). injection H as <-. cbn.
  exists dates. split; [done|]. intros s sd p date this_lag Hs Hp Hlag.
  destruct (mapM_lookup _ _ _ _ _ Hrows Hs) as (rows_s & Hrs & Hrow).
  assert (zip (map (lag_steps steps_per_day) (lag policy_ds)) sd !! p
          = Some (lag_steps steps_per_day this_lag, date)) as Hzip.
  { rewrite lookup_zip_with, list_lookup_fmap, Hlag. cbn. by rewrite Hp. }
  destruct (mapM_lookup _ _ _ _ _ Hrow Hzip) as (row & Hrp & Hlagged).
  pose proof (sample_dates_range _ _ _ _ sd date Hdates
                (list_elem_of_lookup_2 _ _ _ Hs) (list_elem_of_lookup_2 _ _ _ Hp))
    as Hrange.
  set (p0 := Z.to_nat (date * steps_per_day)) in *.
  assert (Z.of_nat p0 = date * steps_per_day)%Z as Hp0 by (unfold p0; nia).
  assert (p0 < length t)%nat as Hin by nia.
  assert (p0 + length (lag_steps steps_per_day this_lag) <= length t)%nat as Hfit.
  { destruct (decide (p0 + length (lag_steps steps_per_day this_lag) <= length t)%nat)
      as [|Hover]; [done|].
    rewrite lagged_dummy_overruns in Hlagged by (fold p0; lia). discriminate. }
  rewrite lagged_dummy_fits in Hlagged by done. injection Hlagged as <-.
  split.
  { rewrite length_lag_steps in Hfit. nia. }
  exists (swapaxes (length t) rows_s). split.
  { by rewrite list_lookup_fmap, Hrs. }
  intros k Hk. destruct (swapaxes_lookup (length t) rows_s k p _ Hk Hrp) as (r & Hr & Hv).
  exists r. split; [done|]. rewrite Hv. f_equal.
  apply nth_zero_ramp_one; [done|lia|done|done].
Qed.

Lemma policy_dummies_are_zero_ramp_one_witness :
  exists out dates,
    init_policy_dummies example_generator example_policies 2 (time_grid 50 2)
                        0%Z true = inr out
    /\ sample_dates (example_generator 0%Z) example_policies 2 = inr dates.
Proof.
  destruct (init_policy_dummies example_generator example_policies 2
              (time_grid 50 2) 0%Z true) as [e|out] eqn:E.
  { vm_compute in E. discriminate. }
  destruct (policy_dummies_are_zero_ramp_one _ _ _ _ _ _ out 2%Z E
              ltac:(vm_compute; reflexivity) ltac:(lia) ltac:(cbn; lia)
              ltac:(vm_compute; reflexivity)) as (dates & Hd & _).
  exists out, dates. split; [reflexivity|exact Hd].
Defined.

Lemma mapM_inl {A B} (f : A -> result B) l e :
  mapM f l = inl e -> exists x, x ∈ l /\ f x = inl e.
Proof.
  induction l as [|a l IH]; intros H; [discriminate|]. cbn in H.
  destruct (f a) as [e'|y] eqn:Ea; cbn in H.
  - injection H as <-. exists a. split; [left|done].
  - destruct (mapM f l) as [e'|ys]; cbn in H; [|discriminate].
    injection H as <-. destruct (IH eq_refl) as (x & Hx & Hfx).
    exists x. split; [by right|done].
Qed.

Lemma lagged_dummy_inl n spd l date e :
  lagged_dummy n spd l date = inl e ->
  e = ValueError "could not broadcast input array".
Proof.
  unfold lagged_dummy, assign_slice. intros H.
  destruct (decide _); [discriminate|].
  destruct l as [|x [|y l]]; unfold raise, ret in H; try discriminate;
    by injection H as <-.
Qed.

(** X11.  A lag ramp is never truncated: when some sampled onset lies on
    the time axis but its ramp would run over the end of it,
    [init_policy_dummies] raises [ValueError] instead of returning. *)
Theorem lag_ramp_past_the_end_raises gen policy_ds n_samples t seed random_end
  steps_per_day dates s sd p date this_lag :
  steps_per_day_of t = inr steps_per_day ->
  sample_dates (gen seed) policy_ds n_samples = inr dates ->
  dates !! s = Some sd -> sd !! p = Some date ->
  lag policy_ds !! p = Some this_lag ->
  (0 < steps_per_day)%Z ->
  (0 <= date * steps_per_day < Z.of_nat (length t))%Z ->
  (Z.of_nat (length t)
   < date * steps_per_day + steps_per_day * Z.of_nat (length this_lag))%Z ->
  init_policy_dummies gen policy_ds n_samples t seed random_end
  = inl (ValueError "could not broadcast input array").
Proof.
  intros Hspd Hdates Hs Hp Hlag Hpos Hon Hover. unfold init_policy_dummies.
  rewrite Hspd. cbn [bind]. rewrite Hdates. cbn [bind].
  destruct (mapM _ dates) as [e|rows] eqn:Hrows.
  - cbn. f_equal. apply mapM_inl in Hrows as (sd' & _ & Hrow).
    apply mapM_inl in Hrow as ([l' date'] & _ & Hl). by apply lagged_dummy_inl in Hl.
  - exfalso.
    destruct (mapM_lookup _ _ _ _ _ Hrows Hs) as (rows_s & _ & Hrow).
    assert (zip (map (lag_steps steps_per_day) (lag policy_ds)) sd !! p
            = Some (lag_steps steps_per_day this_lag, date)) as Hzip.
    { rewrite lookup_zip_with, list_lookup_fmap, Hlag. cbn. by rewrite Hp. }
    destruct (mapM_lookup _ _ _ _ _ Hrow Hzip) as (row & _ & Hlagged).
    rewrite lagged_dummy_overruns in Hlagged; [discriminate|lia|].
    rewrite length_lag_steps. nia.
Qed.

(** X12.  An onset at or after the end of the time axis does not give an
    all-zero dummy: the step function is 0 throughout, its [argmax] is 0,
    and the lag ramp is written from step 0 on, followed by zeros. *)
Theorem onset_past_the_end_puts_ramp_first n_steps steps_per_day l date :
  (Z.of_nat n_steps <= date * steps_per_day)%Z -> (length l <= n_steps)%nat ->
  step_dummy n_steps steps_per_day date = replicate n_steps 0%Q
  /\ lagged_dummy n_steps steps_per_day l date
     = inr (l ++ replicate (n_steps - length l) 0%Q).
Proof.
  intros Hlate Hl. split.
  - rewrite step_dummy_replicate.
    replace (Z.to_nat (date * steps_per_day) `min` n_steps)%nat with n_steps by lia.
    replace (n_steps - Z.to_nat (date * steps_per_day))%nat with 0%nat by lia.
    cbn. by rewrite app_nil_r.
  - apply lagged_dummy_late_onset; [lia|done].
Qed.

Lemma onset_past_the_end_witness :
  step_dummy 4 1 5 = replicate 4 0%Q
  /\ lagged_dummy 4 1 [(1 # 3)%Q; (2 # 3)%Q] 5
     = inr ([(1 # 3)%Q; (2 # 3)%Q] ++ replicate (4 - 2) 0%Q).
Proof.
  apply (onset_past_the_end_puts_ramp_first 4 1 [(1 # 3)%Q; (2 # 3)%Q] 5);
    [lia|cbn; lia].
Defined.

Lemma lag_ramp_past_the_end_witness :
  init_policy_dummies example_generator long_ramp_policies 2 (time_grid 50 2) 0%Z true
  = inl (ValueError "could not broadcast input array").
Proof.
  apply (lag_ramp_past_the_end_raises example_generator long_ramp_policies 2
           (time_grid 50 2) 0%Z true 2%Z [[20; 27; 34]; [21; 28; 35]]%Z
           0%nat [20; 27; 34]%Z 0%nat 20%Z (replicate 40 (1 # 2)%Q)).
  - vm_compute. reflexivity.
  - vm_compute. reflexivity.
  - reflexivity.
  - reflexivity.
  - reflexivity.
  - lia.
  - vm_compute. split; [discriminate|reflexivity].
  - vm_compute. reflexivity.
Defined.

(** * Collinear onsets *)

Lemma NoDup_range_length (x : list Z) (lo hi : Z) :
  NoDup x -> Forall (fun d => (lo <= d < hi)%Z) x ->
  (Z.of_nat (length x) <= Z.max 0 (hi - lo))%Z.
Proof.
  intros Hnd Hr.
  assert (x ⊆+ seqZ lo (hi - lo)) as Hsub.
  { apply NoDup_submseteq; [done|]. intros d Hd. apply elem_of_seqZ.
    rewrite Forall_forall in Hr. specialize (Hr d Hd). lia. }
  apply submseteq_length in Hsub. rewrite length_seqZ in Hsub. lia.
Qed.

Lemma narrow_interval_all_collinear policy_ds n_samples drawn :
  drawn_ok policy_ds n_samples drawn ->
  (interval_start policy_ds < interval_end policy_ds)%Z ->
  (interval_end policy_ds - interval_start policy_ds
   < Z.of_nat (length (policy policy_ds)))%Z ->
  collinearity_free (map np_sort drawn) = [].
Proof.
  intros [_ Hall] Hlt Hnarrow. unfold collinearity_free.
  apply filter_none. apply Forall_forall. intros y Hy Hnd.
  apply list_elem_of_fmap in Hy as (x & -> & Hx).
  rewrite Forall_forall in Hall. destruct (Hall x Hx) as [Hlen Hr].
  rewrite (np_sort_Permutation x) in Hnd.
  pose proof (NoDup_range_length x _ _ Hnd Hr). lia.
Qed.

(** X13.  When the onset interval holds fewer days than there are
    policies, every drawn vector has two policies starting on the same
    day, all of them are dropped, and [init_policy_dummies] fails its
    assertion whatever the generator draws. *)
Theorem too_narrow_interval_fails_the_assertion (gen : generator) policy_ds
  n_samples t seed random_end steps_per_day :
  steps_per_day_of t = inr steps_per_day ->
  (interval_start policy_ds < interval_end policy_ds)%Z ->
  (0 < n_samples)%nat ->
  (interval_end policy_ds - interval_start policy_ds
   < Z.of_nat (length (policy policy_ds)))%Z ->
  init_policy_dummies gen policy_ds n_samples t seed random_end = inl AssertionError.
Proof.
  intros Hspd Hlt Hn Hnarrow. unfold init_policy_dummies. rewrite Hspd. cbn [bind].
  destruct (randint_spec (gen seed) 0 _ _ (n_samples * 2)
              (length (policy policy_ds)) Hlt) as (drawn & Hd & Hlen & Hall).
  assert (drawn_ok policy_ds n_samples drawn) as Hok by (split; [lia|done]).
  rewrite (sample_dates_spec _ _ _ drawn Hd Hn).
  rewrite (narrow_interval_all_collinear _ _ _ Hok Hlt Hnarrow). cbn [length].
  by rewrite decide_False by lia.
Qed.

Lemma too_narrow_interval_witness :
  init_policy_dummies example_generator narrow_policies 2 (time_grid 50 2) 0%Z false
  = inl AssertionError.
Proof.
  apply (too_narrow_interval_fails_the_assertion example_generator narrow_policies
           2 (time_grid 50 2) 0%Z false 2%Z).
  - vm_compute. reflexivity.
  - reflexivity.
  - lia.
  - reflexivity.
Defined.

(** * The time grid and the steps per day *)

Lemma Qmax_list_increasing (f : nat -> Q) n :
  (forall i, (f i < f (S i))%Q) ->
  Qmax_list (f 0%nat) (map f (seq 1 n)) = f n.
Proof.
  intros Hf. unfold Qmax_list. induction n as [|n IH]; [done|].
  rewrite seq_S, map_app, foldl_app, IH. cbn.
  destruct (Qlt_le_dec (f n) (f (S n))) as [_|Hle]; [done|].
  exfalso. apply (Qlt_not_le _ _ (Hf n) Hle).
Qed.

Lemma increasing_from_0 (f : nat -> Q) n :
  (forall i, (f i < f (S i))%Q) -> (0 < n)%nat -> (f 0%nat < f n)%Q.
Proof.
  intros Hf Hn. induction n as [|n IH]; [lia|].
  destruct n as [|n]; [apply Hf|].
  eapply Qlt_trans; [apply IH; lia|apply Hf].
Qed.

Lemma Qmin_list_increasing (f : nat -> Q) n :
  (forall i, (f i < f (S i))%Q) ->
  Qmin_list (f 0%nat) (map f (seq 1 n)) = f 0%nat.
Proof.
  intros Hf. unfold Qmin_list. induction n as [|n IH]; [done|].
  rewrite seq_S, map_app, foldl_app, IH. cbn.
  destruct (Qlt_le_dec (f (S n)) (f 0%nat)) as [Hlt|_]; [|done].
  exfalso. apply (Qlt_irrefl (f 0%nat)).
  eapply Qlt_trans; [|exact Hlt]. apply increasing_from_0; [done|lia].
Qed.

Lemma round_half_even_integer (q : Q) (z : Z) :
  (q == inject_Z z)%Q -> round_half_even q = z.
Proof.
  intros Hq. unfold round_half_even.
  assert (Qfloor q = z) as -> by (rewrite Hq; apply Qfloor_Z).
  assert ((q - inject_Z z ?= 1 # 2)%Q = Lt) as ->; [|done].
  apply Qlt_alt. rewrite Hq. unfold Qminus. rewrite Qplus_opp_r. reflexivity.
Qed.

(** The steps per day of a strictly increasing time axis. *)
Lemma steps_per_day_of_increasing (f : nat -> Q) n :
  (forall i, (f i < f (S i))%Q) -> (0 < n)%nat ->
  steps_per_day_of (f 0%nat :: map f (seq 1 n))
  = inr (round_half_even (1 / ((f n - f 0%nat) / inject_Z (Z.of_nat n)))).
Proof.
  intros Hf Hn. unfold steps_per_day_of.
  rewrite Qmax_list_increasing, Qmin_list_increasing by done.
  rewrite length_map, length_seq. rewrite decide_False by lia.
  assert (Qeq_bool (f n - f 0%nat) 0 = false) as ->; [|done].
  apply not_true_is_false. intros Heq. apply Qeq_bool_eq in Heq.
  pose proof (increasing_from_0 f n Hf Hn) as Hlt.
  apply Qlt_minus_iff in Hlt. unfold Qminus in Heq. rewrite Heq in Hlt.
  by apply Qlt_irrefl in Hlt.
Qed.

(** X14.  The grid [simulate_and_regress] builds and the step count
    [init_policy_dummies] reads off it agree: on the grid of [n_days] days
    with [tsteps_per_day] steps each, [init_policy_dummies] finds exactly
    [tsteps_per_day] steps per day. *)
Theorem steps_per_day_of_the_time_grid n_days tsteps_per_day :
  (0 < n_days)%nat -> (0 < tsteps_per_day)%nat ->
  steps_per_day_of (time_grid n_days tsteps_per_day) = inr (Z.of_nat tsteps_per_day).
Proof.
  intros Hd Hs. unfold time_grid. rewrite Nat.add_1_r.
  set (f := fun k : nat => Z.of_nat k # Pos.of_nat tsteps_per_day).
  change (map f (seq 0 (S (n_days * tsteps_per_day))))
    with (f 0%nat :: map f (seq 1 (n_days * tsteps_per_day))).
  assert (forall i, (f i < f (S i))%Q) as Hf.
  { intros i. unfold f, Qlt. cbn. nia. }
  rewrite steps_per_day_of_increasing by (done || nia). f_equal.
  apply round_half_even_integer.
  set (N := (n_days * tsteps_per_day)%nat).
  assert (f N == inject_Z (Z.of_nat n_days))%Q as HN.
  { assert (Z.pos (Pos.of_nat tsteps_per_day) = Z.of_nat tsteps_per_day) as Hp by lia.
    unfold f, N, Qeq, inject_Z. cbn. rewrite Hp. nia. }
  assert (f 0%nat == 0)%Q as H0 by (unfold f, Qeq; cbn; lia).
  rewrite HN, H0.
  assert (inject_Z (Z.of_nat N) == inject_Z (Z.of_nat n_days)
                                   * inject_Z (Z.of_nat tsteps_per_day))%Q as ->.
  { unfold N. by rewrite Nat2Z.inj_mul, inject_Z_mult. }
  assert (~ inject_Z (Z.of_nat n_days) == 0)%Q as Hnd.
  { unfold Qeq, inject_Z. cbn. lia. }
  assert (~ inject_Z (Z.of_nat tsteps_per_day) == 0)%Q as Hns.
  { unfold Qeq, inject_Z. cbn. lia. }
  field. repeat split; done.
Qed.

Lemma steps_per_day_of_the_time_grid_witness :
  steps_per_day_of (time_grid 50 2) = inr 2%Z.
Proof. apply (steps_per_day_of_the_time_grid 50 2); lia. Defined.

(** * The randomized end of the regression *)

Lemma argmax_bool_lt (l : list bool) : l ≠ [] -> (argmax_bool l < length l)%nat.
Proof.
  induction l as [|b l IH]; [done|]. intros _. cbn. destruct b; [lia|].
  destruct (existsb (fun b : bool => b) l) eqn:E; [|lia].
  destruct l as [|b' l']; [discriminate|]. specialize (IH ltac:(done)). cbn in IH |- *. lia.
Qed.

Lemma last_pol_lt d samp : (0 < n_t d)%nat -> (last_pol d samp < n_t d)%nat.
Proof.
  intros Hn. unfold last_pol.
  set (l := map _ (days d)).
  assert (length l = n_t d) as Hl by (unfold l, days; by rewrite length_map, length_seq).
  rewrite <- Hl. apply argmax_bool_lt. intros E. rewrite E in Hl. cbn in Hl. lia.
Qed.

Lemma round_half_even_bounds (q : Q) (N : Z) :
  (0 <= q)%Q -> (q <= inject_Z N)%Q -> (0 <= round_half_even q <= N)%Z.
Proof.
  intros H0 HN. unfold round_half_even.
  pose proof (Qfloor_resp_le _ _ H0) as Hf0. pose proof (Qfloor_resp_le _ _ HN) as HfN.
  rewrite Qfloor_Z in HfN. change (Qfloor 0) with 0%Z in Hf0.
  destruct (decide (Qfloor q = N)) as [Heq|Hne].
  - assert ((q - inject_Z (Qfloor q) ?= 1 # 2)%Q = Lt) as ->; [|lia].
    rewrite Heq. clear Heq Hf0 HfN H0. destruct q as [a b].
    unfold Qle, inject_Z in HN. unfold Qcompare, Qminus, Qplus, Qopp, inject_Z.
    cbn in HN |- *. apply Z.compare_lt_iff. nia.
  - destruct (_ ?= _)%Q; [destruct (Z.even _)|..]; lia.
Qed.

(** X15.  With a randomized end, the regression of a sample ends between
    the day after [last_pol] and the last day of the simulation, for every
    end fraction between 0 and 1 (the fractions [init_policy_dummies]
    draws are). *)
Theorem random_end_day_is_in_the_window d samp :
  (0 < n_t d)%nat ->
  (0 <= daily_random_end d samp)%Q -> (daily_random_end d samp <= 1)%Q ->
  (Z.of_nat (last_pol d samp) + 1 <= last_reg_day d true samp <= Z.of_nat (n_t d))%Z.
Proof.
  intros Hn Hf0 Hf1. pose proof (last_pol_lt d samp Hn) as Hlp.
  unfold last_reg_day.
  set (W := (Z.of_nat (n_t d) - (Z.of_nat (last_pol d samp) + 1))%Z).
  assert (0 <= W)%Z as HW by (unfold W; lia).
  assert (0 <= inject_Z W)%Q as HWq by (unfold Qle, inject_Z; cbn; lia).
  destruct (round_half_even_bounds (inject_Z W * daily_random_end d samp) W) as [Hlo Hhi].
  - by apply Qmult_le_0_compat.
  - eapply Qle_trans; [apply (Qmult_le_compat_nonneg _ (inject_Z W) _ 1%Q)|].
    + split; [done|apply Qle_refl].
    + by split.
    + rewrite Qmult_1_r. apply Qle_refl.
  - unfold W in *. lia.
Qed.

Lemma random_end_day_witness :
  (Z.of_nat (last_pol three_policies 0) + 1 <= last_reg_day three_policies true 0
   <= Z.of_nat (n_t three_policies))%Z.
Proof.
  apply (random_end_day_is_in_the_window three_policies 0).
  - vm_compute. lia.
  - vm_compute. discriminate.
  - vm_compute. discriminate.
Defined.

(** * Growth threshold of the SEIR eigenvalue *)

Section Threshold.
Local Open Scope R_scope.



End Threshold.



(** X17.  A transmission rate so negative that the radicand
    [(sigma - gamma)^2 + 4 sigma beta] is negative has no real SEIR growth
    rate: [get_lambda_SEIR] returns NaN. *)
Theorem lambda_SEIR_is_NaN_for_a_negative_radicand (b g s : R) :
  ((s - g) * (s - g) + 4 * s * b < 0)%R ->
  get_lambda_SEIR (Fin b) (Fin g) (Fin s) = NaN.
Proof.
  intros H. unfold get_lambda_SEIR, sq. cbn. by rewrite Rltb_true.
Qed.

Lemma lambda_SEIR_NaN_witness : get_lambda_SEIR (Fin (-1)) (Fin 1) (Fin 1) = NaN.
Proof. apply lambda_SEIR_is_NaN_for_a_negative_radicand. lra. Defined.

(** * Rescaling from daily rates *)






(** * Conversion to daily rates *)








Section RateCoordinate.
Local Open Scope R_scope.


End RateCoordinate.



(** * What the conversion to daily steps leaves alone *)






(** * The deterministic parameters *)

Lemma with_growth_lookup ds lam k :
  exists f : DataArray -> DataArray,
    (forall v, values (f v) = values v)
    /\ variables (with_growth ds lam) !! k
       = f <$> (if decide (k = "lambda_disc_meanbeta"%string) then Some lam
                else variables ds !! k).
Proof.
  unfold with_growth. cbn zeta. destruct (in_dims _ _).
  - exists (fun v => v). split; [done|]. cbn.
    destruct (decide _) as [->|Hne].
    + by rewrite lookup_insert_eq.
    + rewrite lookup_insert_ne by done. by destruct (variables ds !! k).
  - exists (fun v => if bool_decide (k ∈ coords ds) then v
                     else {| dims := "sample"%string :: dims v; values := values v |}).
    split; [intros v; by destruct (bool_decide _)|].
    cbn. rewrite map_lookup_imap.
    destruct (decide _) as [->|Hne].
    + by rewrite lookup_insert_eq.
    + rewrite lookup_insert_ne by done. by destruct (variables ds !! k).
Qed.


Lemma append_deterministic_ne (s : string) : (s +:+ "_deterministic")%string ≠ s.
Proof. induction s as [|c s IH]; cbn; [done|]. intros [= H]. done. Qed.

Lemma get_item_set_item ds k v k' :
  get_item (set_item ds k v) k' = if decide (k = k') then ret v else get_item ds k'.
Proof.
  unfold get_item, set_item. cbn. destruct (decide (k = k')) as [->|Hne].
  - by rewrite lookup_insert_eq.
  - by rewrite lookup_insert_ne.
Qed.


(** A parameter that is not in the dataset cannot be discretized. *)
Lemma discretize_param_missing out param :
  variables out !! param = None -> discretize_param out param = inl (KeyError param).
Proof.
  intros Hp. unfold discretize_param.
  destruct (variables out !! (param +:+ "_deterministic")%string) as [d|] eqn:Ed.
  - cbn [bind ret]. unfold get_item at 1. rewrite Ed. cbn [bind ret].
    rewrite get_item_set_item, decide_False by apply append_deterministic_ne.
    unfold get_item. by rewrite Hp.
  - unfold get_item at 1. by rewrite Hp.
Qed.

Lemma discretize_param_fresh out param p :
  variables out !! param = Some p ->
  variables out !! (param +:+ "_deterministic")%string = None ->
  discretize_param out param
  = inr (set_item (set_item (set_item out (param +:+ "_deterministic") p)
                            (param +:+ "_deterministic") (discretize p))
                  param (discretize p)).
Proof.
  intros Hp Hd. unfold discretize_param. rewrite Hd.
  unfold get_item at 1. rewrite Hp. cbn [bind ret].
  rewrite get_item_set_item, decide_True by done. cbn [bind ret].
  rewrite !get_item_set_item, !decide_False by apply append_deterministic_ne.
  unfold get_item. by rewrite Hp.
Qed.

Lemma discretize_param_inr out param out' :
  discretize_param out param = inr out' -> is_Some (variables out !! param).
Proof.
  intros H. destruct (variables out !! param) eqn:E; [by eexists|].
  by rewrite discretize_param_missing in H.
Qed.

(** What discretizing a parameter that is there does to the dataset. *)
Lemma discretize_param_ok out param p :
  variables out !! param = Some p ->
  exists out',
    discretize_param out param = inr out'
    /\ t out' = t out /\ sizes out' = sizes out /\ coords out' = coords out
    /\ forall k,
         variables out' !! k
         = if decide (k = param) then Some (discretize p)
           else if decide (k = (param +:+ "_deterministic")%string)
                then Some (discretize (default p (variables out
                                                  !! (param +:+ "_deterministic")%string)))
                else variables out !! k.
Proof.
  intros Hp. unfold discretize_param.
  pose proof (append_deterministic_ne param) as Hne.
  destruct (variables out !! (param +:+ "_deterministic")%string) as [d|] eqn:Ed.
  - cbn [bind ret]. unfold get_item at 1. rewrite Ed. cbn [bind ret].
    rewrite get_item_set_item, decide_False by done.
    unfold get_item. rewrite Hp. cbn [bind ret]. eexists. split; [done|].
    repeat split. intros k. cbn.
    destruct (decide (k = param)) as [->|Hk]; [by rewrite lookup_insert_eq|].
    rewrite lookup_insert_ne by done.
    destruct (decide _) as [->|Hk']; [by rewrite lookup_insert_eq|].
    by rewrite lookup_insert_ne.
  - unfold get_item at 1. rewrite Hp. cbn [bind ret].
    rewrite get_item_set_item, decide_True by done. cbn [bind ret].
    rewrite !get_item_set_item, !decide_False by done.
    unfold get_item. rewrite Hp. cbn [bind ret]. eexists. split; [done|].
    repeat split. intros k. cbn.
    destruct (decide (k = param)) as [->|Hk]; [by rewrite lookup_insert_eq|].
    rewrite lookup_insert_ne by done.
    destruct (decide _) as [->|Hk']; [by rewrite lookup_insert_eq|].
    by rewrite !lookup_insert_ne.
Qed.

Lemma rate_funcs_known kind :
  kind = "SIR"%string \/ kind = "SEIR"%string -> exists fs, rate_funcs kind = inr fs.
Proof. intros [-> | ->]; by eexists. Qed.

(** X23.  Both rates are discretized whatever the model kind is: a
    dataset without a [sigma] variable is refused with [KeyError], also for
    [kind = "SIR"], which never uses the incubation rate. *)
Theorem sigma_is_required_for_every_kind noise estimates_ds no_policy_growth_rate
  policy_effect_timeseries t0 t1 rest beta_noise_on beta_noise_sd kind
  gamma_noise_on gamma_noise_sd sigma_noise_on sigma_noise_sd :
  kind = "SIR"%string \/ kind = "SEIR"%string ->
  is_Some (variables estimates_ds !! "gamma"%string) ->
  variables estimates_ds !! "sigma"%string = None ->
  get_stochastic_discrete_params noise estimates_ds no_policy_growth_rate
    policy_effect_timeseries (t0 :: t1 :: rest) beta_noise_on beta_noise_sd kind
    gamma_noise_on gamma_noise_sd sigma_noise_on sigma_noise_sd
  = inl (KeyError "sigma").
Proof.
  intros Hkind [g Hg] Hs. unfold get_stochastic_discrete_params, stochastic_arrays.
  destruct (rate_funcs_known kind Hkind) as [[beta_func lambda_func] ->].
  cbn [bind ret].
  fold (growth_disc no_policy_growth_rate policy_effect_timeseries (xQ (t1 - t0))).
  fold (with_growth estimates_ds
          (growth_disc no_policy_growth_rate policy_effect_timeseries (xQ (t1 - t0)))).
  set (out1 := with_growth _ _).
  destruct (with_growth_lookup estimates_ds
              (growth_disc no_policy_growth_rate policy_effect_timeseries (xQ (t1 - t0)))
              "gamma") as (fg & _ & Hg1).
  destruct (with_growth_lookup estimates_ds
              (growth_disc no_policy_growth_rate policy_effect_timeseries (xQ (t1 - t0)))
              "sigma") as (fs & _ & Hs1).
  rewrite decide_False in Hg1 by done. rewrite decide_False in Hs1 by done.
  rewrite Hg in Hg1. rewrite Hs in Hs1.
  cbn in Hg1, Hs1. fold out1 in Hg1, Hs1.
  destruct (discretize_param_ok out1 "gamma" _ Hg1) as (out2 & H2 & _ & _ & _ & Hl2).
  cbn [foldM]. rewrite H2. cbn [bind].
  rewrite discretize_param_missing; [done|].
  rewrite Hl2. rewrite !decide_False by done. done.
Qed.

Lemma sigma_is_required_witness :
  get_stochastic_discrete_params no_draws
    (with_variables (example_estimates (Fin (1 / 10)) NaN)
       {["gamma"%string := coord_da "gamma" (Fin (1 / 10))]})
    (Fin 0) no_policy_effect [0; 1]%Q noise_off (Fin 0) "SIR"
    noise_off (Fin 0) noise_off (Fin 0)
  = inl (KeyError "sigma").
Proof.
  apply sigma_is_required_for_every_kind; [by left|by eexists|reflexivity].
Defined.

(** X24.  The transmission and the removal noise are checked: whenever
    [get_stochastic_discrete_params] returns, the kind is ["SIR"] or
    ["SEIR"] and the beta and gamma selectors are each ["normal"],
    ["exponential"] or a false value. *)
Theorem returns_only_for_known_kind_and_selectors noise estimates_ds
  no_policy_growth_rate policy_effect_timeseries t beta_noise_on beta_noise_sd kind
  gamma_noise_on gamma_noise_sd sigma_noise_on sigma_noise_sd r :
  get_stochastic_discrete_params noise estimates_ds no_policy_growth_rate
    policy_effect_timeseries t beta_noise_on beta_noise_sd kind
    gamma_noise_on gamma_noise_sd sigma_noise_on sigma_noise_sd = inr r ->
  (kind = "SIR"%string \/ kind = "SEIR"%string)
  /\ known_noise beta_noise_on /\ known_noise gamma_noise_on.
Proof.
  unfold get_stochastic_discrete_params. intros H.
  apply bind_inr in H as ([out out_vars] & Harr & _).
  by apply beta_gamma_selectors_known in Harr.
Qed.

Lemma returns_only_for_known_witness :
  exists r,
    example_call (example_estimates (Fin 0) NaN) "SIR" noise_off noise_off noise_off
    = inr r
    /\ known_noise noise_off.
Proof.
  destruct (example_call (example_estimates (Fin 0) NaN) "SIR"
              noise_off noise_off noise_off) as [e|r] eqn:E.
  - exfalso.
    assert (is_ok (example_call (example_estimates (Fin 0) NaN) "SIR"
                     noise_off noise_off noise_off) = true) as Hok by reflexivity.
    rewrite E in Hok. discriminate.
  - exists r. split; [reflexivity|].
    exact (proj1 (proj2 (returns_only_for_known_kind_and_selectors
                           _ _ _ _ _ _ _ _ _ _ _ _ _ E))).
Defined.






(** * The true policy effects *)

Lemma Rsum_app (l1 l2 : list R) : Rsum (l1 ++ l2) = (Rsum l1 + Rsum l2)%R.
Proof. unfold Rsum. induction l1 as [|x l IH]; cbn; [lra|]. rewrite IH. lra. Qed.

Lemma Rsum_const (c : R) {A} (l : list A) :
  Rsum (map (fun _ => c) l) = (c * INR (length l))%R.
Proof.
  unfold Rsum. induction l as [|x l IH]; [cbn; lra|].
  cbn [map foldr length]. rewrite IH, S_INR. lra.
Qed.

Lemma notnull_cons (x : xreal) (l : list xreal) :
  notnull (x :: l) = match x with Fin r => r :: notnull l | NaN => notnull l end.
Proof. by destruct x. Qed.

Lemma notnull_where (f : nat -> xreal) (valid : nat -> bool) (l : list nat) :
  (forall k, k ∈ l -> valid k = true -> is_finite (f k)) ->
  notnull (map (fun k => if valid k then f k else NaN) l)
  = map (fun k => real_of (f k)) (filter (fun k => valid k = true) l).
Proof.
  induction l as [|k l IH]; intros Hf; [done|].
  cbn [map]. rewrite notnull_cons, filter_cons.
  rewrite IH by (intros k' Hk'; apply Hf; by right).
  destruct (valid k) eqn:Ev.
  - destruct (Hf k ltac:(left) Ev) as [r Hr].
    rewrite Hr, decide_True by done. cbn [map]. by rewrite Hr.
  - by rewrite decide_False.
Qed.

Lemma notnull_finite (f : nat -> xreal) (l : list nat) :
  (forall k, k ∈ l -> is_finite (f k)) ->
  notnull (map f l) = map (fun k => real_of (f k)) l.
Proof.
  induction l as [|k l IH]; intros Hf; [done|].
  cbn [map]. rewrite notnull_cons, IH by (intros k' Hk'; apply Hf; by right).
  destruct (Hf k ltac:(left)) as [r Hr]. by rewrite Hr.
Qed.

Section Pooled.
Variables (t : list Q) (first_pol : Z) (n_samples n_policies : nat)
  (lambda_stoch : DataArray) (policy_timeseries : nat -> nat -> nat -> Q).
Variables (j : nat) (ix : index).

Hypothesis finite_on_regime : forall s k,
  (s < n_samples)%nat -> k ∈ regime_steps t first_pol n_policies policy_timeseries j s ->
  is_finite (lambda_at lambda_stoch ix s k).

Lemma regime_notnull s :
  (s < n_samples)%nat ->
  notnull (regime_values t first_pol n_policies lambda_stoch policy_timeseries j ix s)
  = map (fun k => real_of (lambda_at lambda_stoch ix s k))
        (regime_steps t first_pol n_policies policy_timeseries j s).
Proof.
  intros Hs. generalize (finite_on_regime s). destruct j as [|px]; cbn; intros Hf.
  - apply notnull_finite. intros k Hk. by apply Hf.
  - apply (notnull_where (lambda_at lambda_stoch ix s)
             (regime_valid policy_timeseries n_policies px s)).
    intros k Hk Hv. apply Hf; [done|]. by apply list_elem_of_filter.
Qed.

Lemma regime_weight_count s :
  (s < n_samples)%nat ->
  regime_weight t first_pol n_policies lambda_stoch policy_timeseries j ix s
  = INR (length (regime_steps t first_pol n_policies policy_timeseries j s)).
Proof.
  intros Hs. pose proof (regime_notnull s Hs) as Hn. destruct j as [|px]; [done|].
  unfold regime_weight. by rewrite Hn, length_map.
Qed.

Lemma regime_product s :
  (s < n_samples)%nat ->
  let steps := regime_steps t first_pol n_policies policy_timeseries j s in
  let total := Rsum (map (fun k => real_of (lambda_at lambda_stoch ix s k)) steps) in
  (regime_lambda t first_pol n_policies lambda_stoch policy_timeseries j ix s
   * Fin (regime_weight t first_pol n_policies lambda_stoch policy_timeseries j ix s))%A
  = if decide (steps = []) then NaN else Fin total.
Proof.
  intros Hs steps total. rewrite (regime_weight_count s Hs).
  unfold regime_lambda, nanmean. rewrite (regime_notnull s Hs). fold steps.
  destruct steps as [|k l] eqn:E; [done|].
  rewrite decide_False by done. cbn [map]. cbn -[INR Rsum]. f_equal.
  rewrite length_map. fold total.
  assert (INR (S (length l)) <> 0)%R by (apply not_0_INR; lia).
  unfold total. cbn [map]. field. done.
Qed.

Lemma weighted_lambda_pooled :
  weighted_lambda t first_pol n_samples n_policies lambda_stoch policy_timeseries j ix
  = xdiv (Fin (pooled_sum t first_pol n_samples n_policies lambda_stoch
                 policy_timeseries j ix))
         (Fin (pooled_count t first_pol n_samples n_policies policy_timeseries j)).
Proof.
  unfold weighted_lambda, pooled_sum, pooled_count, nansum. cbn zeta.
  assert (forall l, (forall s, s ∈ l -> (s < n_samples)%nat) ->
            Rsum (notnull (map (fun s =>
              (regime_lambda t first_pol n_policies lambda_stoch policy_timeseries j ix s
               * Fin (regime_weight t first_pol n_policies lambda_stoch
                        policy_timeseries j ix s))%A) l))
            = Rsum (map (fun s => Rsum (map (fun k => real_of (lambda_at lambda_stoch ix s k))
                                 (regime_steps t first_pol n_policies policy_timeseries j s)))
                        l)
            /\ Rsum (map (regime_weight t first_pol n_policies lambda_stoch
                            policy_timeseries j ix) l)
               = Rsum (map (fun s => INR (length (regime_steps t first_pol n_policies
                                                    policy_timeseries j s))) l)) as H.
  { induction l as [|s l IH]; intros Hl; [done|].
    destruct (IH (fun s' Hs' => Hl s' (proj2 (elem_of_cons _ _ _) (or_intror Hs'))))
      as [IH1 IH2].
    pose proof (Hl s ltac:(left)) as Hs.
    cbn [map]. rewrite (regime_product s Hs), (regime_weight_count s Hs). cbn zeta.
    unfold Rsum in *. cbn [foldr]. rewrite IH2. split; [|done].
    rewrite notnull_cons.
    destruct (decide _) as [E|E].
    - rewrite E. cbn [map foldr]. rewrite IH1. lra.
    - cbn [foldr]. by rewrite IH1. }
  destruct (H (seq 0 n_samples)) as [H1 H2].
  { intros s Hs. apply elem_of_seq in Hs. lia. }
  by rewrite H1, H2.
Qed.

End Pooled.






(** X28.  The no-policy mean drops the last 20 steps before the first
    possible onset: when at most 20 steps lie at or before [first_pol],
    nothing is left to average, and [intercept_true] and the effect of the
    first policy are NaN. *)
Theorem intercept_needs_more_than_20_steps (t : list Q) (first_pol : Z)
  (n_samples n_policies : nat) (lambda_stoch : DataArray)
  (policy_timeseries : nat -> nat -> nat -> Q) (ix : index) :
  (length (filter (fun k => Qle_bool (nth k t 0%Q) (inject_Z first_pol) = true)
                  (seq 0 (length t))) <= 20)%nat ->
  let '(intercept_true, effect_true) :=
    get_true_pol_effects t first_pol n_samples n_policies lambda_stoch
      policy_timeseries in
  values intercept_true ix = NaN
  /\ (ix "policy"%string = 0%nat -> values effect_true ix = NaN).
Proof.
  intros Hfew. unfold get_true_pol_effects. cbn [values].
  assert (no_pol_steps t first_pol = []) as Hnone.
  { unfold no_pol_steps. cbn zeta.
    replace (length _ - 20)%nat with 0%nat by lia. done. }
  assert (weighted_lambda t first_pol n_samples n_policies lambda_stoch
            policy_timeseries 0 ix = NaN) as H0.
  { rewrite weighted_lambda_pooled.
    - unfold pooled_count. cbn [regime_steps]. rewrite Hnone. cbn [length].
      rewrite Rsum_const. cbn. rewrite Reqb_true by lra. done.
    - intros s k _ Hk. cbn in Hk. rewrite Hnone in Hk. by apply elem_of_nil in Hk. }
  split; [done|]. intros ->. rewrite H0.
  by destruct (weighted_lambda _ _ _ _ _ _ 1 ix).
Qed.







Lemma intercept_needs_more_than_20_steps_witness :
  values (fst (get_true_pol_effects (example_days 10) 5 2 1 example_lambda
                 example_regimes)) (fun _ => 0%nat) = NaN.
Proof.
  refine (proj1 (intercept_needs_more_than_20_steps (example_days 10) 5 2 1
                   example_lambda example_regimes (fun _ => 0%nat) _)).
  vm_compute. lia.
Defined.

(** * The regression loops *)




Section RegressionLoops.
Variable OLS : list xreal -> list (list xreal) -> result (list xreal).
Variable add_constant : list (list xreal) -> list (list xreal).
Variables (d : DailyDs) (reg_lag_days : list Z) (min_cases pop : xreal)
  (random_end : bool).








End RegressionLoops.


(** * The last policy *)

Lemma argmax_bool_threshold (m a n : nat) :
  (a <= m < a + n)%nat ->
  argmax_bool (map (fun k => (m <=? k)%nat) (seq a n)) = (m - a)%nat.
Proof.
  revert a. induction n as [|n IH]; intros a Hm; [lia|]. cbn [seq map argmax_bool].
  destruct (Nat.leb_spec m a) as [Hle|Hgt].
  - lia.
  - assert (existsb (fun b : bool => b) (map (fun k => (m <=? k)%nat) (seq (S a) n))
            = true) as ->.
    { apply existsb_exists. exists true. split; [|done].
      apply in_map_iff. exists m. split; [by apply Nat.leb_le|].
      apply in_seq. lia. }
    rewrite IH by lia. lia.
Qed.

Lemma step_policies_all_on (o : nat -> nat) (k : nat) :
  Qeq_bool (foldr Qplus 0%Q (map (step_policy_timeseries o 0 k) [0; 1; 2]%nat)) 3
  = (Nat.max (o 0%nat) (Nat.max (o 1%nat) (o 2%nat)) <=? k)%nat.
Proof.
  unfold step_policy_timeseries. cbn [map foldr].
  destruct (Nat.leb_spec (o 0%nat) k), (Nat.leb_spec (o 1%nat) k),
    (Nat.leb_spec (o 2%nat) k);
    (destruct (Nat.leb_spec (Nat.max (o 0%nat) (Nat.max (o 1%nat) (o 2%nat))) k);
     [|try lia]); try lia; reflexivity.
Qed.

(** X30.  With exactly three policies that switch from 0 to 1 on their
    onset days, [last_pol] is the onset day of the last policy: the first
    day on which the three indicators sum to 3. *)
Theorem last_pol_of_three_step_policies (d : DailyDs) (samp : nat) (o : nat -> nat) :
  length (daily_policy d) = 3%nat ->
  (forall k p, (p < 3)%nat ->
     daily_policy_timeseries d samp k p = step_policy_timeseries o 0 k p) ->
  (Nat.max (o 0%nat) (Nat.max (o 1%nat) (o 2%nat)) < n_t d)%nat ->
  last_pol d samp = Nat.max (o 0%nat) (Nat.max (o 1%nat) (o 2%nat)).
Proof.
  intros Hlen Hts Hm. unfold last_pol, policy_ixs, days. rewrite Hlen.
  cbn [seq].
  rewrite (map_ext _ (fun k => (Nat.max (o 0%nat) (Nat.max (o 1%nat) (o 2%nat)) <=? k)%nat)).
  - rewrite argmax_bool_threshold by lia. lia.
  - intros k. rewrite <- step_policies_all_on. f_equal. f_equal.
    cbn [map]. by rewrite !Hts by lia.
Qed.

Lemma last_pol_of_three_step_policies_witness :
  last_pol three_policies 0 = Nat.max 2 (Nat.max 5 7).
Proof.
  apply (last_pol_of_three_step_policies three_policies 0
           (fun p => match p with 0 => 2 | 1 => 5 | _ => 7 end)%nat).
  - reflexivity.
  - intros k [|[|[|p]]] Hp; [reflexivity..|lia].
  - vm_compute. lia.
Defined.
